(** * bulk_create.py: bulk provisioning of server and client instances

    A shallow embedding of [bulk_create.py] and the properties of its
    request construction and of its operation polling.

    Python values that end up in request bodies are modelled by [PyVal];
    dictionaries keep their insertion order.  The cloud provider (the
    [utils] validators, [googleapiclient.discovery.build], [bulkInsert] and
    [zoneOperations().wait]) is a parameter: a state type with one
    transition per call, each call taken at its interface.  A submission
    returns an operation or raises [HttpError], the exception the program
    handles; a wait query returns an operation; the client is built or
    the default credentials are missing.  Integers are Python's, hence
    [Z].  The program runs in a small monad that threads
    the provider state and collects, in program order, what the program
    prints, which functions of the module it calls and which provider
    calls it makes together with their answers. *)

From Stdlib Require Import ZArith List String Ascii Bool Lia.
Import ListNotations.

Open Scope string_scope.
Open Scope Z_scope.

(** ** Python values *)

Set Warnings "-register-all".

Inductive PyVal : Type :=
| PyNone
| PyInt (z : Z)
| PyStr (s : string)
| PyList (l : list PyVal)
| PyDict (d : list (string * PyVal)).

Definition dict := list (string * PyVal).

(** [d.get(k)] / [k in d] *)
Fixpoint dict_get (k : string) (d : dict) : option PyVal :=
  match d with
  | [] => None
  | (k', v) :: d' => if String.eqb k k' then Some v else dict_get k d'
  end.

(** [d[k] = v]: an existing key keeps its place, a new key goes last. *)
Fixpoint dict_set (k : string) (v : PyVal) (d : dict) : dict :=
  match d with
  | [] => [(k, v)]
  | (k', v') :: d' =>
      if String.eqb k k' then (k', v) :: d' else (k', v') :: dict_set k v d'
  end.

Definition has_key (k : string) (v : PyVal) : bool :=
  match v with
  | PyDict d => match dict_get k d with Some _ => true | None => false end
  | _ => false
  end.

Definition field (k : string) (v : PyVal) : option PyVal :=
  match v with
  | PyDict d => dict_get k d
  | _ => None
  end.

(** Truth value of an optional string ([None] and [''] are false). *)
Definition truthy (o : option string) : bool :=
  match o with
  | Some s => negb (String.eqb s "")
  | None => false
  end.

Definition opt_str_eqb (a b : option string) : bool :=
  match a, b with
  | Some x, Some y => String.eqb x y
  | None, None => true
  | _, _ => false
  end.

Definition of_opt (o : option string) : PyVal :=
  match o with
  | Some s => PyStr s
  | None => PyNone
  end.

(** [[x] * n] *)
Definition list_times {A : Type} (x : A) (n : Z) : list A :=
  repeat x (Z.to_nat n).

Definition dquote : string := String (Ascii false true false false false true false false) "".
Definition newline : string := String (Ascii false true false true false false false false) "".

(** ** Command line arguments and normalized options *)

Inductive OBInstType : Type := SERVER | CLIENT.

Record Args : Type := {
  args_project : string;
  args_region : string;
  args_zone : string;
  args_image : string;
  args_scopes : list string;
  args_subnet : option string;
  args_policy : option string;
  args_nic_type : option string;
  args_enable_tier1_networking : bool;
  args_num_servers : Z;
  args_num_clients : Z;
  args_server_type : string;
  args_client_type : string;
  args_server_prefix : string;
  args_client_prefix : string;
  args_num_ssd_per_server : Z
}.

(** [opts.server] and [opts.client] *)
Module Server.
Record t : Type := {
  count : Z;
  type : string;
  prefix : string;
  num_ssd_per : Z
}.
End Server.

Module Client.
Record t : Type := {
  count : Z;
  type : string;
  prefix : string
}.
End Client.

Record OBOptions : Type := {
  project : string;
  region : string;
  zone : string;
  image : string;
  scopes : list string;
  subnet : option string;
  policy : option string;
  nic_type : option string;
  enable_tier1_networking : bool;
  server : Server.t;
  client : Client.t
}.

(** ** Provider interface *)

(** The operation resource [{operationType, name, status, error?}]. *)
Record Operation : Type := {
  operationType : string;
  name : string;
  status : string;
  error : option PyVal
}.

(** [googleapiclient.errors.HttpError]; [content] is the JSON document of
    the error body, as [json.loads] decodes it. *)
Record HttpError : Type := {
  content : PyVal
}.

(** The [utils.verify_*] queries of [verify_inputs]. *)
Inductive VerifyCall : Type :=
| verify_project (p : string)
| verify_region (p r : string)
| verify_zone (p r z : string)
| verify_image (p i : string)
| verify_machine_type (p z t : string)
| verify_subnet (p r s : string)
| verify_policy (p r pol : string).

Record Provider (P : Type) : Type := {
  utils_verify : VerifyCall -> P -> bool * P;
  (** [false]: [DefaultCredentialsError] *)
  discovery_build : P -> bool * P;
  (** [compute.instances().bulkInsert(project, zone, body).execute()] *)
  bulkInsert : string -> string -> PyVal -> P -> (HttpError + Operation) * P;
  (** [compute.zoneOperations().wait(project, zone, operation).execute()] *)
  zoneOperations_wait : string -> string -> string -> P -> Operation * P
}.

Arguments utils_verify {P}.
Arguments discovery_build {P}.
Arguments bulkInsert {P}.
Arguments zoneOperations_wait {P}.

(** ** Events, outcomes and the monad *)

Inductive Piece : Type :=
| Lit (s : string)
| Fmt (v : PyVal).

Inductive Callee : Type :=
| C_verify_inputs
| C_OBOptions
| C_setup_network_interface
| C_setup_disks (is_server : bool)
| C_setup_instance_properties (is_server : bool)
| C_create_instances (inst_type : OBInstType)
| C_wait_for_operation (operation : Operation).

Inductive Event : Type :=
| EvPrint (text : list Piece) (end_ : string)
| EvCall (c : Callee)
| EvVerify (q : VerifyCall) (found : bool)
| EvBuild (ok : bool)
| EvBulkInsert (proj zn : string) (body : PyVal) (resp : HttpError + Operation)
| EvWait (proj zn op : string) (resp : Operation).

Inductive Exn : Type :=
| Exception (payload : PyVal)
| AttributeError.

(** [Running]: the fuel of a poll loop ran out, the loop has not exited. *)
Inductive Res (A : Type) : Type :=
| Ok (a : A)
| Exit (code : Z)
| Raise (e : Exn)
| Running.

Arguments Ok {A}.
Arguments Exit {A}.
Arguments Raise {A}.
Arguments Running {A}.

Definition M (P A : Type) : Type := P -> Res A * P * list Event.

Definition ret {P A : Type} (a : A) : M P A := fun p => (Ok a, p, []).

Definition bind {P A B : Type} (m : M P A) (f : A -> M P B) : M P B :=
  fun p =>
    match m p with
    | (Ok a, p1, t1) =>
        match f a p1 with
        | (r, p2, t2) => (r, p2, (t1 ++ t2)%list)
        end
    | (Exit c, p1, t1) => (Exit c, p1, t1)
    | (Raise e, p1, t1) => (Raise e, p1, t1)
    | (Running, p1, t1) => (Running, p1, t1)
    end.

Notation "x <- c1 ;; c2" := (bind c1 (fun x => c2))
  (at level 100, c1 at next level, right associativity).
Notation "c1 ;; c2" := (bind c1 (fun _ => c2))
  (at level 100, right associativity).

Definition log {P : Type} (e : Event) : M P unit := fun p => (Ok tt, p, [e]).
Definition sys_exit {P A : Type} (code : Z) : M P A := fun p => (Exit code, p, []).
Definition raise {P A : Type} (e : Exn) : M P A := fun p => (Raise e, p, []).
Definition out_of_fuel {P A : Type} : M P A := fun p => (Running, p, []).

Definition print {P : Type} (text : list Piece) : M P unit := log (EvPrint text newline).
Definition print_end {P : Type} (text : list Piece) (end_ : string) : M P unit :=
  log (EvPrint text end_).

(** An expression that may raise. *)
Definition lift {P A : Type} (x : Exn + A) : M P A :=
  match x with
  | inl e => raise e
  | inr a => ret a
  end.

(** [v.get(k)]: only a dictionary has [get]; a missing key gives [None]. *)
Definition py_get (v : PyVal) (k : string) : Exn + PyVal :=
  match v with
  | PyDict d =>
      match dict_get k d with
      | Some x => inr x
      | None => inr PyNone
      end
  | _ => inl AttributeError
  end.

Definition outcome {P A : Type} (x : Res A * P * list Event) : Res A := fst (fst x).
Definition final {P A : Type} (x : Res A * P * list Event) : P := snd (fst x).
Definition events {P A : Type} (x : Res A * P * list Event) : list Event := snd x.

(** ** OBOptions.__init__ *)

Definition nic_warning : Event :=
  EvPrint [Lit ("Warning: Setting nic-type to " ++ dquote ++ "GVNIC" ++ dquote
                ++ " for Tier 1 networking.")] newline.

Definition OBOptions_init {P : Type} (args : Args) : M P OBOptions :=
  log (EvCall C_OBOptions) ;;
  let image := "global/images/" ++ args_image args in
  let scopes := map (fun item => "https://www.googleapis.com/auth/" ++ item)
                    (args_scopes args) in
  let subnet :=
    match args_subnet args with
    | Some s =>
        if truthy (Some s)
        then Some ("regions/" ++ args_region args ++ "/subnetworks/" ++ s)
        else None
    | None => None
    end in
  nic <- (if args_enable_tier1_networking args
             && negb (opt_str_eqb (args_nic_type args) (Some "GVNIC"))
          then log nic_warning ;; ret (Some "GVNIC")
          else ret (args_nic_type args)) ;;
  ret {| project := args_project args;
         region := args_region args;
         zone := args_zone args;
         image := image;
         scopes := scopes;
         subnet := subnet;
         policy := args_policy args;
         nic_type := nic;
         enable_tier1_networking := args_enable_tier1_networking args;
         server := {| Server.count := args_num_servers args;
                      Server.type := args_server_type args;
                      Server.prefix := args_server_prefix args;
                      Server.num_ssd_per := args_num_ssd_per_server args |};
         client := {| Client.count := args_num_clients args;
                      Client.type := args_client_type args;
                      Client.prefix := args_client_prefix args |} |}.

(** ** Resource descriptors *)

Definition setup_network_interface (opts : OBOptions) : PyVal :=
  let network_interface :=
    [("accessConfigs",
      PyList [PyDict [("type", PyStr "ONE_TO_ONE_NAT");
                      ("name", PyStr "External NAT");
                      ("networkTier", PyStr "PREMIUM")]])] in
  let network_interface :=
    if truthy (subnet opts)
    then dict_set "subnetwork" (of_opt (subnet opts)) network_interface
    else network_interface in
  let network_interface :=
    if truthy (nic_type opts)
    then dict_set "nicType" (of_opt (nic_type opts)) network_interface
    else network_interface in
  PyDict network_interface.

Definition local_disk : PyVal :=
  PyDict [("type", PyStr "SCRATCH");
          ("initializeParams", PyDict [("diskType", PyStr "local-ssd")]);
          ("autoDelete", PyStr "true");
          ("interface", PyStr "NVME")].

Definition setup_disks (opts : OBOptions) (is_server : bool) : list PyVal :=
  let boot_disk :=
    [("type", PyStr "PERSISTENT");
     ("boot", PyStr "true");
     ("initializeParams", PyDict [("sourceImage", PyStr (image opts))]);
     ("autoDelete", PyStr "true")] in
  let boot_disk :=
    if opt_str_eqb (nic_type opts) (Some "GVNIC")
    then dict_set "guestOsFeatures" (PyList [PyDict [("type", PyStr "GVNIC")]]) boot_disk
    else boot_disk in
  let disks := [PyDict boot_disk] in
  if is_server && (Server.num_ssd_per (server opts) >? 0)
  then (disks ++ list_times local_disk (Server.num_ssd_per (server opts)))%list
  else disks.

Definition setup_instance_properties (opts : OBOptions) (is_server : bool)
    (net_int : PyVal) (disks : list PyVal) : PyVal :=
  let instance_properties :=
    [("networkInterfaces", PyList [net_int]);
     ("disks", PyList disks);
     ("serviceAccounts", PyList [PyDict [("scopes", PyList (map PyStr (scopes opts)))]])] in
  let instance_properties :=
    if is_server
    then dict_set "machineType" (PyStr (Server.type (server opts))) instance_properties
    else dict_set "machineType" (PyStr (Client.type (client opts))) instance_properties in
  let instance_properties :=
    if truthy (policy opts)
    then dict_set "scheduling"
           (PyDict [("onHostMaintenance", PyStr "TERMINATE");
                    ("automaticRestart", PyStr "false")])
           (dict_set "resourcePolicies" (PyList [of_opt (policy opts)])
              instance_properties)
    else instance_properties in
  let instance_properties :=
    if enable_tier1_networking opts
    then dict_set "networkPerformanceConfig"
           (PyDict [("totalEgressBandwidthTier", PyStr "TIER_1")])
           instance_properties
    else instance_properties in
  PyDict instance_properties.

(** ** The program *)

Section Program.

Context {P : Type} (cloud : Provider P).

Definition verify (q : VerifyCall) : M P bool :=
  fun p => let (found, p') := utils_verify cloud q p in (Ok found, p', [EvVerify q found]).

Definition build : M P bool :=
  fun p => let (ok, p') := discovery_build cloud p in (Ok ok, p', [EvBuild ok]).

Definition bulkInsert_execute (proj zn : string) (body : PyVal)
  : M P (HttpError + Operation) :=
  fun p =>
    let (resp, p') := bulkInsert cloud proj zn body p in
    (Ok resp, p', [EvBulkInsert proj zn body resp]).

Definition wait_execute (proj zn op : string) : M P Operation :=
  fun p =>
    let (resp, p') := zoneOperations_wait cloud proj zn op p in
    (Ok resp, p', [EvWait proj zn op resp]).

(** A call of one of the module's pure functions. *)
Definition traced {A : Type} (c : Callee) (a : A) : M P A :=
  log (EvCall c) ;; ret a.

(** [o and not verify(o)] is false *)
Definition verify_optional (o : option string) (q : string -> VerifyCall) : M P bool :=
  match o with
  | Some s => if truthy (Some s) then verify (q s) else ret true
  | None => ret true
  end.

Definition verify_inputs (args : Args) : M P bool :=
  log (EvCall C_verify_inputs) ;;
  ok <- verify (verify_project (args_project args)) ;;
  if negb ok then ret false else
  ok <- verify (verify_region (args_project args) (args_region args)) ;;
  if negb ok then ret false else
  ok <- verify (verify_zone (args_project args) (args_region args) (args_zone args)) ;;
  if negb ok then ret false else
  ok <- verify (verify_image (args_project args) (args_image args)) ;;
  if negb ok then ret false else
  ok <- verify (verify_machine_type (args_project args) (args_zone args)
                  (args_server_type args)) ;;
  if negb ok then ret false else
  ok <- verify (verify_machine_type (args_project args) (args_zone args)
                  (args_client_type args)) ;;
  if negb ok then ret false else
  ok <- verify_optional (args_subnet args)
          (verify_subnet (args_project args) (args_region args)) ;;
  if negb ok then ret false else
  ok <- verify_optional (args_policy args)
          (verify_policy (args_project args) (args_region args)) ;;
  if negb ok then ret false else
  ret true.

(** The [while True] loop of [wait_for_operation]; [fuel] bounds the number
    of iterations the model follows. *)
Fixpoint wait_loop (fuel : nat) (operation : Operation) (opts : OBOptions)
  : M P Operation :=
  match fuel with
  | O => out_of_fuel
  | S fuel' =>
      result <- wait_execute (project opts) (zone opts) (name operation) ;;
      if String.eqb (status result) "DONE"
      then
        print [Lit "done."] ;;
        match error result with
        | Some payload => raise (Exception payload)
        | None => ret result
        end
      else wait_loop fuel' operation opts
  end.

Definition wait_for_operation (fuel : nat) (operation : Operation) (opts : OBOptions)
  : M P Operation :=
  log (EvCall (C_wait_for_operation operation)) ;;
  print_end [Lit ("Waiting for " ++ operationType operation ++ " operation to finish...")]
            " " ;;
  wait_loop fuel operation opts.


Definition request_body (opts : OBOptions) (inst_type : OBInstType)
    (instance_properties : PyVal) : PyVal :=
  match inst_type with
  | SERVER =>
      PyDict [("count", PyInt (Server.count (server opts)));
              ("namePattern", PyStr (Server.prefix (server opts) ++ "##"));
              ("instanceProperties", instance_properties)]
  | CLIENT =>
      PyDict [("count", PyInt (Client.count (client opts)));
              ("namePattern", PyStr (Client.prefix (client opts) ++ "##"));
              ("instanceProperties", instance_properties)]
  end.

Definition is_server_of (inst_type : OBInstType) : bool :=
  match inst_type with
  | SERVER => true
  | CLIENT => false
  end.

Definition create_instances (fuel : nat) (opts : OBOptions)
    (network_interface : PyVal) (inst_type : OBInstType) : M P unit :=
  log (EvCall (C_create_instances inst_type)) ;;
  let is_server := is_server_of inst_type in
  disks <- traced (C_setup_disks is_server) (setup_disks opts is_server) ;;
  instance_properties <-
    traced (C_setup_instance_properties is_server)
           (setup_instance_properties opts is_server network_interface disks) ;;
  let body := request_body opts inst_type instance_properties in
  resp <- bulkInsert_execute (project opts) (zone opts) body ;;
  match resp with
  | inl e =>
      err <- lift (py_get (content e) "error") ;;
      error_msg <- lift (py_get err "message") ;;
      print [Lit "Error: "; Fmt error_msg] ;;
      sys_exit 1
  | inr operation =>
      wait_for_operation fuel operation opts ;;
      ret tt
  end.

Definition no_credentials_message : string :=
  "No Google application credentials." ++ newline
  ++ "Please do one of the following before re-running the script:" ++ newline
  ++ "1) Run `gcloud auth application-default login`" ++ newline
  ++ "OR" ++ newline
  ++ "2) Set the GOOGLE_APPLICATION_CREDENTIALS environment variable" ++ newline.

Definition zero_instances_message : string :=
  "Error: Must specify at least one server or client.".

(** The [__main__] block, from the parsed arguments on. *)
Definition main (fuel : nat) (args : Args) : M P unit :=
  if args_num_servers args + args_num_clients args <? 1
  then print [Lit zero_instances_message] ;; sys_exit 1
  else
    ok <- verify_inputs args ;;
    if negb ok then sys_exit 1 else
    ob_opts <- OBOptions_init args ;;
    compute <- build ;;
    if negb compute then print [Lit no_credentials_message] ;; sys_exit 1 else
    net_int <- traced C_setup_network_interface (setup_network_interface ob_opts) ;;
    (if args_num_servers args >? 0
     then create_instances fuel ob_opts net_int SERVER
     else ret tt) ;;
    (if args_num_clients args >? 0
     then create_instances fuel ob_opts net_int CLIENT
     else ret tt).

(** The two role steps that end [__main__]. *)
Definition provision (fuel : nat) (args : Args) (ob_opts : OBOptions) (net_int : PyVal)
  : M P unit :=
  (if args_num_servers args >? 0
   then create_instances fuel ob_opts net_int SERVER
   else ret tt) ;;
  (if args_num_clients args >? 0
   then create_instances fuel ob_opts net_int CLIENT
   else ret tt).

End Program.

(** ** Reading traces *)

Definition is_done (op : Operation) : bool := String.eqb (status op) "DONE".

(** The answers of the wait queries of a trace, in order. *)
Fixpoint wait_answers (t : list Event) : list Operation :=
  match t with
  | [] => []
  | EvWait _ _ _ resp :: t' => resp :: wait_answers t'
  | _ :: t' => wait_answers t'
  end.

(** Submissions and wait queries: the calls that provision. *)
Definition is_provider_call (e : Event) : bool :=
  match e with
  | EvBulkInsert _ _ _ _ => true
  | EvWait _ _ _ _ => true
  | _ => false
  end.

Definition provider_calls (t : list Event) : list Event := filter is_provider_call t.

(** Wait queries on the handle [op], one per answer. *)
Definition polls (opts : OBOptions) (op : Operation) (answers : list Operation)
  : list Event :=
  map (EvWait (project opts) (zone opts) (name op)) answers.

Definition waiting_line (operation : Operation) : Event :=
  EvPrint [Lit ("Waiting for " ++ operationType operation ++ " operation to finish...")] " ".

Definition done_line : Event := EvPrint [Lit "done."] newline.

(** The options [OBOptions.__init__] builds from [args]. *)
Definition options_of (args : Args) : OBOptions :=
  {| project := args_project args;
     region := args_region args;
     zone := args_zone args;
     image := "global/images/" ++ args_image args;
     scopes := map (fun item => "https://www.googleapis.com/auth/" ++ item)
                   (args_scopes args);
     subnet :=
       match args_subnet args with
       | Some s =>
           if truthy (Some s)
           then Some ("regions/" ++ args_region args ++ "/subnetworks/" ++ s)
           else None
       | None => None
       end;
     policy := args_policy args;
     nic_type :=
       if args_enable_tier1_networking args
          && negb (opt_str_eqb (args_nic_type args) (Some "GVNIC"))
       then Some "GVNIC"
       else args_nic_type args;
     enable_tier1_networking := args_enable_tier1_networking args;
     server := {| Server.count := args_num_servers args;
                  Server.type := args_server_type args;
                  Server.prefix := args_server_prefix args;
                  Server.num_ssd_per := args_num_ssd_per_server args |};
     client := {| Client.count := args_num_clients args;
                  Client.type := args_client_type args;
                  Client.prefix := args_client_prefix args |} |}.

Definition scheduling_block : PyVal :=
  PyDict [("onHostMaintenance", PyStr "TERMINATE"); ("automaticRestart", PyStr "false")].

Definition tier1_block : PyVal :=
  PyDict [("totalEgressBandwidthTier", PyStr "TIER_1")].

(** [json.loads(e.content).get("error").get("message")] *)
Definition error_message (e : HttpError) : Exn + PyVal :=
  match py_get (content e) "error" with
  | inl x => inl x
  | inr err => py_get err "message"
  end.

(** What follows a rejected submission: the report, when the error body
    has a message to report, and the end of the run. *)
Definition report (e : HttpError) : list Event :=
  match error_message e with
  | inr m => [EvPrint [Lit "Error: "; Fmt m] newline]
  | inl _ => []
  end.

Definition halt (e : HttpError) : Res unit :=
  match error_message e with
  | inr _ => Exit 1
  | inl x => Raise x
  end.

(** Events of the steps before provisioning: validation, normalization,
    client construction, the network interface. *)
Definition is_preamble (e : Event) : bool :=
  match e with
  | EvCall C_verify_inputs
  | EvCall C_OBOptions
  | EvCall C_setup_network_interface
  | EvVerify _ _
  | EvBuild _
  | EvPrint _ _ => true
  | _ => false
  end.

(** Calls made on behalf of a role. *)
Definition for_role (r : OBInstType) (e : Event) : bool :=
  match e with
  | EvCall (C_create_instances r') =>
      match r, r' with
      | SERVER, SERVER | CLIENT, CLIENT => true
      | _, _ => false
      end
  | EvCall (C_setup_disks b) | EvCall (C_setup_instance_properties b) =>
      Bool.eqb b (is_server_of r)
  | _ => false
  end.

Definition other (r : OBInstType) : OBInstType :=
  match r with
  | SERVER => CLIENT
  | CLIENT => SERVER
  end.

Definition count_of (args : Args) (r : OBInstType) : Z :=
  match r with
  | SERVER => args_num_servers args
  | CLIENT => args_num_clients args
  end.

(** The request [create_instances] submits for a role. *)
Definition body_of (opts : OBOptions) (net_int : PyVal) (inst_type : OBInstType) : PyVal :=
  request_body opts inst_type
    (setup_instance_properties opts (is_server_of inst_type) net_int
       (setup_disks opts (is_server_of inst_type))).

Definition forget {A : Type} (r : Res A) : Res unit :=
  match r with
  | Ok _ => Ok tt
  | Exit c => Exit c
  | Raise e => Raise e
  | Running => Running
  end.

(** The calls [create_instances] starts with. *)
Definition opening (inst_type : OBInstType) : list Event :=
  [EvCall (C_create_instances inst_type);
   EvCall (C_setup_disks (is_server_of inst_type));
   EvCall (C_setup_instance_properties (is_server_of inst_type))].

(** A step that always completes and only emits preamble events. *)
Definition quiet {P A : Type} (m : M P A) : Prop :=
  forall p, exists a p' t,
    m p = (Ok a, p', t) /\ Forall (fun e => is_preamble e = true) t.

(** The provider calls of one role: its submission, then the polls of the
    operation the submission returned. *)
Definition flow (opts : OBOptions) (net_int : PyVal) (inst_type : OBInstType)
    (resp : HttpError + Operation) (answers : list Operation) : list Event :=
  EvBulkInsert (project opts) (zone opts) (body_of opts net_int inst_type) resp
  :: match resp with
     | inl _ => []
     | inr op => polls opts op answers
     end.

(** ** A scripted provider

    Answers are read off a script; when the script of wait answers is used
    up the operation stays pending. *)

Record Script : Type := {
  found : VerifyCall -> bool;
  credentials : bool;
  submissions : list (HttpError + Operation);
  waits : list Operation
}.

Definition pending (nm : string) : Operation :=
  {| operationType := "insert"; name := nm; status := "RUNNING"; error := None |}.

Definition finished (nm : string) (err : option PyVal) : Operation :=
  {| operationType := "insert"; name := nm; status := "DONE"; error := err |}.

Definition scripted : Provider Script :=
  {| utils_verify := fun q s => (found s q, s);
     discovery_build := fun s => (credentials s, s);
     bulkInsert := fun _ _ _ s =>
       match submissions s with
       | r :: rest =>
           (r, {| found := found s; credentials := credentials s;
                  submissions := rest; waits := waits s |})
       | [] => (inl {| content := PyNone |}, s)
       end;
     zoneOperations_wait := fun _ _ nm s =>
       match waits s with
       | r :: rest =>
           (r, {| found := found s; credentials := credentials s;
                  submissions := submissions s; waits := rest |})
       | [] => (pending nm, s)
       end |}.

(** A provider on which no operation ever finishes. *)
Definition stalled : Provider unit :=
  {| utils_verify := fun _ s => (true, s);
     discovery_build := fun s => (true, s);
     bulkInsert := fun _ _ _ s => (inr (pending "op-1"), s);
     zoneOperations_wait := fun _ _ nm s => (pending nm, s) |}.

Definition example_args : Args :=
  {| args_project := "proj";
     args_region := "us-central1";
     args_zone := "us-central1-a";
     args_image := "ofs-image";
     args_scopes := ["cloud-platform"];
     args_subnet := None;
     args_policy := None;
     args_nic_type := None;
     args_enable_tier1_networking := false;
     args_num_servers := 2;
     args_num_clients := 3;
     args_server_type := "n2-standard-8";
     args_client_type := "n2-standard-4";
     args_server_prefix := "ofs-server-";
     args_client_prefix := "ofs-client-";
     args_num_ssd_per_server := 2 |}.

Definition script (subs : list (HttpError + Operation)) (ws : list Operation) : Script :=
  {| found := fun _ => true; credentials := true; submissions := subs; waits := ws |}.

Definition tier1_args : Args :=
  {| args_project := "proj";
     args_region := "us-central1";
     args_zone := "us-central1-a";
     args_image := "ofs-image";
     args_scopes := ["cloud-platform"];
     args_subnet := Some "ofs-subnet";
     args_policy := Some "compact";
     args_nic_type := Some "";
     args_enable_tier1_networking := true;
     args_num_servers := 2;
     args_num_clients := 3;
     args_server_type := "n2-standard-8";
     args_client_type := "n2-standard-4";
     args_server_prefix := "ofs-server-";
     args_client_prefix := "ofs-client-";
     args_num_ssd_per_server := 2 |}.

Definition with_nic (args : Args) (nic : option string) (tier1 : bool) : Args :=
  {| args_project := args_project args;
     args_region := args_region args;
     args_zone := args_zone args;
     args_image := args_image args;
     args_scopes := args_scopes args;
     args_subnet := args_subnet args;
     args_policy := args_policy args;
     args_nic_type := nic;
     args_enable_tier1_networking := tier1;
     args_num_servers := args_num_servers args;
     args_num_clients := args_num_clients args;
     args_server_type := args_server_type args;
     args_client_type := args_client_type args;
     args_server_prefix := args_server_prefix args;
     args_client_prefix := args_client_prefix args;
     args_num_ssd_per_server := args_num_ssd_per_server args |}.

Definition with_counts (args : Args) (servers clients : Z) : Args :=
  {| args_project := args_project args;
     args_region := args_region args;
     args_zone := args_zone args;
     args_image := args_image args;
     args_scopes := args_scopes args;
     args_subnet := args_subnet args;
     args_policy := args_policy args;
     args_nic_type := args_nic_type args;
     args_enable_tier1_networking := args_enable_tier1_networking args;
     args_num_servers := servers;
     args_num_clients := clients;
     args_server_type := args_server_type args;
     args_client_type := args_client_type args;
     args_server_prefix := args_server_prefix args;
     args_client_prefix := args_client_prefix args;
     args_num_ssd_per_server := args_num_ssd_per_server args |}.

(** ** Reading validation and submissions *)

(** The validator queries of a trace with their answers, in order. *)
Fixpoint verify_answers (t : list Event) : list (VerifyCall * bool) :=
  match t with
  | [] => []
  | EvVerify q found :: t' => (q, found) :: verify_answers t'
  | _ :: t' => verify_answers t'
  end.

(** The check of an optional input: made only for a non-empty value. *)
Definition optional_query (o : option string) (q : string -> VerifyCall)
  : list VerifyCall :=
  match o with
  | Some s => if truthy (Some s) then [q s] else []
  | None => []
  end.

(** The queries of [verify_inputs], in the order of the source. *)
Definition expected_queries (args : Args) : list VerifyCall :=
  ([verify_project (args_project args);
    verify_region (args_project args) (args_region args);
    verify_zone (args_project args) (args_region args) (args_zone args);
    verify_image (args_project args) (args_image args);
    verify_machine_type (args_project args) (args_zone args) (args_server_type args);
    verify_machine_type (args_project args) (args_zone args) (args_client_type args)]
   ++ optional_query (args_subnet args)
        (verify_subnet (args_project args) (args_region args))
   ++ optional_query (args_policy args)
        (verify_policy (args_project args) (args_region args)))%list.

(** The bodies of the submissions of a trace, in order. *)
Fixpoint submitted (t : list Event) : list PyVal :=
  match t with
  | [] => []
  | EvBulkInsert _ _ body _ :: t' => body :: submitted t'
  | _ :: t' => submitted t'
  end.

(** The flow of a role whose operation was seen DONE without error. *)
Definition completed_flow (opts : OBOptions) (net_int : PyVal) (inst_type : OBInstType)
    (l : list Event) : Prop :=
  exists op pend res,
    l = flow opts net_int inst_type (inr op) (pend ++ [res])
    /\ Forall (fun o => is_done o = false) pend
    /\ is_done res = true
    /\ error res = None.

(** What stands behind an outcome: an exit has code 1, an exception is
    the error payload of a DONE answer of the trace or the [AttributeError]
    of a rejected submission whose error body has no error object. *)
Definition accounted (r : Res unit) (t : list Event) : Prop :=
  match r with
  | Exit c => c = 1
  | Raise (Exception payload) =>
      exists res,
        In res (wait_answers t) /\ is_done res = true /\ error res = Some payload
  | Raise AttributeError =>
      exists proj zn body e,
        In (EvBulkInsert proj zn body (inl e)) t /\ error_message e = inl AttributeError
  | _ => True
  end.

(** The requests a run is to submit, in order. *)
Definition planned (args : Args) : list PyVal :=
  ((if args_num_servers args >? 0
    then [body_of (options_of args) (setup_network_interface (options_of args)) SERVER]
    else [])
   ++ (if args_num_clients args >? 0
       then [body_of (options_of args) (setup_network_interface (options_of args)) CLIENT]
       else []))%list.

(** The events of [OBOptions.__init__]. *)
Definition normalizer_events (args : Args) : list Event :=
  EvCall C_OBOptions ::
    (if args_enable_tier1_networking args
        && negb (opt_str_eqb (args_nic_type args) (Some "GVNIC"))
     then [nic_warning] else []).

Definition with_found (s : Script) (f : VerifyCall -> bool) : Script :=
  {| found := f; credentials := credentials s;
     submissions := submissions s; waits := waits s |}.

Definition without_credentials (s : Script) : Script :=
  {| found := found s; credentials := false;
     submissions := submissions s; waits := waits s |}.

(** A project in which the zone does not exist. *)
Definition no_such_zone (q : VerifyCall) : bool :=
  match q with
  | verify_zone _ _ _ => false
  | _ => true
  end.

Definition quota_error : HttpError :=
  {| content := PyDict [("error", PyDict [("code", PyInt 403);
                                          ("message", PyStr "quota exceeded")])] |}.

(** * Properties *)

(** ** The normalizer *)

Lemma opt_str_eqb_eq (a b : option string) : opt_str_eqb a b = true <-> a = b.
Proof.
  destruct a as [x|], b as [y|]; simpl; split; intro H;
    try discriminate; try reflexivity.
  - apply String.eqb_eq in H. now subst.
  - injection H as ->. apply String.eqb_refl.
Qed.

Lemma OBOptions_init_run {P : Type} (args : Args) (p : P) :
  OBOptions_init args p =
    (Ok (options_of args), p,
     EvCall C_OBOptions ::
       (if args_enable_tier1_networking args
           && negb (opt_str_eqb (args_nic_type args) (Some "GVNIC"))
        then [nic_warning] else [])).
Proof.
  unfold OBOptions_init, options_of, bind, log, ret.
  destruct (args_enable_tier1_networking args
            && negb (opt_str_eqb (args_nic_type args) (Some "GVNIC"))); reflexivity.
Qed.

(** C3. With tier-1 networking enabled the normalizer succeeds and its
    [nic_type] is ["GVNIC"], whatever NIC type was requested (none, GVNIC
    already, or another value). *)
Theorem tier1_forces_gvnic (P : Type) (args : Args) (p : P) :
  args_enable_tier1_networking args = true ->
  exists opts,
    outcome (OBOptions_init args p) = Ok opts /\ nic_type opts = Some "GVNIC".
Proof.
  intro Ht. exists (options_of args). rewrite OBOptions_init_run. split.
  - reflexivity.
  - unfold options_of; simpl. rewrite Ht; simpl.
    destruct (opt_str_eqb (args_nic_type args) (Some "GVNIC")) eqn:E; simpl.
    + now apply opt_str_eqb_eq.
    + reflexivity.
Qed.

Lemma tier1_forces_gvnic_witness :
  (exists opts,
     outcome (OBOptions_init tier1_args tt) = Ok opts /\ nic_type opts = Some "GVNIC")
  /\ (exists opts,
       outcome (OBOptions_init (with_nic tier1_args None true) tt) = Ok opts
       /\ nic_type opts = Some "GVNIC")
  /\ (exists opts,
       outcome (OBOptions_init (with_nic tier1_args (Some "GVNIC") true) tt) = Ok opts
       /\ nic_type opts = Some "GVNIC").
Proof.
  repeat split.
  - apply (tier1_forces_gvnic unit tier1_args tt). reflexivity.
  - apply (tier1_forces_gvnic unit (with_nic tier1_args None true) tt). reflexivity.
  - apply (tier1_forces_gvnic unit (with_nic tier1_args (Some "GVNIC") true) tt).
    reflexivity.
Defined.

(** C6, as the code has it.  The warning is printed exactly when tier-1
    networking is enabled and the requested NIC type is not ["GVNIC"]; a
    NIC type left unset counts as not ["GVNIC"], so the warning is printed
    then too. *)
Theorem nic_warning_iff (P : Type) (args : Args) (p : P) :
  In nic_warning (events (OBOptions_init args p))
  <-> (args_enable_tier1_networking args = true
       /\ args_nic_type args <> Some "GVNIC").
Proof.
  rewrite OBOptions_init_run. unfold events; simpl.
  destruct (args_enable_tier1_networking args); simpl.
  - destruct (opt_str_eqb (args_nic_type args) (Some "GVNIC")) eqn:E; simpl.
    + apply opt_str_eqb_eq in E. split.
      * intros [H | []]. discriminate H.
      * intros [_ H]. contradiction.
    + split.
      * intros _. split; [reflexivity|]. intro H.
        apply opt_str_eqb_eq in H. congruence.
      * intros _. right. now left.
  - split.
    + intros [H | []]. discriminate H.
    + intros [H _]. discriminate H.
Qed.

(** C6, counterexample: NIC type unset, tier-1 enabled, and the warning is
    printed. *)
Lemma nic_unset_tier1_warns :
  args_nic_type (with_nic example_args None true) = None
  /\ args_enable_tier1_networking (with_nic example_args None true) = true
  /\ In nic_warning (events (OBOptions_init (with_nic example_args None true) tt)).
Proof.
  split; [reflexivity|]. split; [reflexivity|].
  vm_compute. right. left. reflexivity.
Qed.

(** ** The descriptors *)

Lemma length_list_times {A : Type} (x : A) (n : Z) :
  List.length (list_times x n) = Z.to_nat n.
Proof. unfold list_times. apply repeat_length. Qed.

Lemma Forall_list_times {A : Type} (Q : A -> Prop) (x : A) (n : Z) :
  Q x -> Forall Q (list_times x n).
Proof.
  intro Hx. unfold list_times. induction (Z.to_nat n); simpl; constructor; auto.
Qed.

(** C4. [setup_disks] returns the boot disk (persistent, auto-delete,
    created from the configured image) followed by scratch disks only: none
    for the client role whatever [num_ssd_per] is, as many as [num_ssd_per]
    (a count, so not negative) for the server role; a server with two SSDs
    gets three disks. *)
Theorem setup_disks_boot_then_scratch (opts : OBOptions) (is_server : bool) :
  exists boot scratch,
    setup_disks opts is_server = boot :: scratch
    /\ field "boot" boot = Some (PyStr "true")
    /\ field "type" boot = Some (PyStr "PERSISTENT")
    /\ field "autoDelete" boot = Some (PyStr "true")
    /\ field "initializeParams" boot
       = Some (PyDict [("sourceImage", PyStr (image opts))])
    /\ Forall (fun d => d = local_disk /\ has_key "boot" d = false) scratch
    /\ (is_server = false -> scratch = [])
    /\ (is_server = true -> 0 <= Server.num_ssd_per (server opts) ->
        Z.of_nat (List.length scratch) = Server.num_ssd_per (server opts))
    /\ (is_server = true -> Server.num_ssd_per (server opts) = 2 ->
        List.length (setup_disks opts is_server) = 3%nat).
Proof.
  unfold setup_disks.
  set (boot := if opt_str_eqb (nic_type opts) (Some "GVNIC") then _ else _).
  assert (Hboot : field "boot" (PyDict boot) = Some (PyStr "true")
                  /\ field "type" (PyDict boot) = Some (PyStr "PERSISTENT")
                  /\ field "autoDelete" (PyDict boot) = Some (PyStr "true")
                  /\ field "initializeParams" (PyDict boot)
                     = Some (PyDict [("sourceImage", PyStr (image opts))])).
  { subst boot. destruct (opt_str_eqb (nic_type opts) (Some "GVNIC"));
      repeat split; reflexivity. }
  destruct Hboot as (Hb & Ht & Ha & Hi).
  destruct is_server; cbn [andb].
  - destruct (Server.num_ssd_per (server opts) >? 0) eqn:Hpos.
    + exists (PyDict boot), (list_times local_disk (Server.num_ssd_per (server opts))).
      repeat split; auto.
      * apply Forall_list_times. split; reflexivity.
      * intro H; discriminate H.
      * intros _ Hn. rewrite length_list_times. lia.
      * intros _ H2. simpl. rewrite length_list_times, H2. reflexivity.
    + exists (PyDict boot), []. repeat split; auto.
      * intros _ Hn. simpl. rewrite Z.gtb_ltb in Hpos. apply Z.ltb_ge in Hpos. lia.
      * intros _ H2. rewrite H2 in Hpos. discriminate Hpos.
  - exists (PyDict boot), []. repeat split; auto; intro H; discriminate H.
Qed.

Lemma setup_disks_boot_then_scratch_witness :
  (exists boot scratch,
     setup_disks (options_of example_args) true = boot :: scratch
     /\ field "boot" boot = Some (PyStr "true")
     /\ field "type" boot = Some (PyStr "PERSISTENT")
     /\ field "autoDelete" boot = Some (PyStr "true")
     /\ field "initializeParams" boot
        = Some (PyDict [("sourceImage", PyStr "global/images/ofs-image")])
     /\ Forall (fun d => d = local_disk /\ has_key "boot" d = false) scratch
     /\ (true = false -> scratch = [])
     /\ (true = true -> 0 <= 2 -> Z.of_nat (List.length scratch) = 2)
     /\ (true = true -> 2 = 2 ->
         List.length (setup_disks (options_of example_args) true) = 3%nat))
  /\ List.length (setup_disks (options_of example_args) true) = 3%nat
  /\ List.length (setup_disks (options_of example_args) false) = 1%nat.
Proof.
  split; [|split].
  - exact (setup_disks_boot_then_scratch (options_of example_args) true).
  - reflexivity.
  - reflexivity.
Defined.

(** Outside the data model: a negative SSD count gives no scratch disk. *)
Lemma setup_disks_negative_ssd (opts : OBOptions) (is_server : bool) :
  Server.num_ssd_per (server opts) <= 0 ->
  List.length (setup_disks opts is_server) = 1%nat.
Proof.
  intro Hn. unfold setup_disks.
  replace (Server.num_ssd_per (server opts) >? 0) with false.
  - rewrite andb_false_r. reflexivity.
  - symmetry. rewrite Z.gtb_ltb. apply Z.ltb_ge. exact Hn.
Qed.

(** C7. [setup_instance_properties] carries the resource-policy list and
    the forced scheduling block exactly when a policy is set (a non-empty
    string, as the code tests it), carries the TIER_1 block exactly when
    tier-1 networking is enabled, and equal inputs give equal outputs. *)
Theorem instance_properties_blocks (opts : OBOptions) (is_server : bool)
    (net_int : PyVal) (disks : list PyVal) :
  let props := setup_instance_properties opts is_server net_int disks in
  field "resourcePolicies" props
    = (if truthy (policy opts) then Some (PyList [of_opt (policy opts)]) else None)
  /\ field "scheduling" props
     = (if truthy (policy opts) then Some scheduling_block else None)
  /\ field "networkPerformanceConfig" props
     = (if enable_tier1_networking opts then Some tier1_block else None)
  /\ (forall opts' is_server' net_int' disks',
        opts' = opts -> is_server' = is_server -> net_int' = net_int -> disks' = disks ->
        setup_instance_properties opts' is_server' net_int' disks' = props).
Proof.
  unfold setup_instance_properties.
  repeat split.
  - destruct (truthy (policy opts)), (enable_tier1_networking opts), is_server; reflexivity.
  - destruct (truthy (policy opts)), (enable_tier1_networking opts), is_server; reflexivity.
  - destruct (truthy (policy opts)), (enable_tier1_networking opts), is_server; reflexivity.
  - intros ? ? ? ? -> -> -> ->. reflexivity.
Qed.

Lemma instance_properties_blocks_witness :
  let opts := options_of tier1_args in
  let props := setup_instance_properties opts true (setup_network_interface opts)
                 (setup_disks opts true) in
  field "resourcePolicies" props = Some (PyList [PyStr "compact"])
  /\ field "scheduling" props = Some scheduling_block
  /\ field "networkPerformanceConfig" props = Some tier1_block
  /\ (forall opts' is_server' net_int' disks',
        opts' = opts -> is_server' = true -> net_int' = setup_network_interface opts ->
        disks' = setup_disks opts true ->
        setup_instance_properties opts' is_server' net_int' disks' = props).
Proof.
  exact (instance_properties_blocks (options_of tier1_args) true
           (setup_network_interface (options_of tier1_args))
           (setup_disks (options_of tier1_args) true)).
Defined.

(** ** The poll loop *)

Section Polling.

Context {P : Type} (cloud : Provider P).

Lemma wait_answers_app (t1 t2 : list Event) :
  wait_answers (t1 ++ t2) = (wait_answers t1 ++ wait_answers t2)%list.
Proof.
  induction t1 as [|e t1 IH]; simpl; [reflexivity|].
  destruct e; simpl; rewrite IH; reflexivity.
Qed.

Lemma wait_answers_polls (opts : OBOptions) (op : Operation) (answers : list Operation) :
  wait_answers (polls opts op answers) = answers.
Proof.
  induction answers as [|a l IH]; simpl; [reflexivity|]. now rewrite IH.
Qed.

Lemma polls_app (opts : OBOptions) (op : Operation) (l1 l2 : list Operation) :
  polls opts op (l1 ++ l2) = (polls opts op l1 ++ polls opts op l2)%list.
Proof. apply map_app. Qed.

(** One turn of the loop. *)
Lemma wait_loop_step (fuel : nat) (operation : Operation) (opts : OBOptions) (p : P) :
  wait_loop cloud (S fuel) operation opts p =
    match zoneOperations_wait cloud (project opts) (zone opts) (name operation) p with
    | (result, p1) =>
        let ev := EvWait (project opts) (zone opts) (name operation) result in
        if is_done result
        then
          match error result with
          | Some payload => (Raise (Exception payload), p1, [ev; done_line])
          | None => (Ok result, p1, [ev; done_line])
          end
        else
          match wait_loop cloud fuel operation opts p1 with
          | (r, p2, t) => (r, p2, ev :: t)
          end
    end.
Proof.
  simpl. unfold bind, wait_execute, is_done.
  destruct (zoneOperations_wait cloud (project opts) (zone opts) (name operation) p)
    as [result p1].
  destruct (String.eqb (status result) "DONE").
  - destruct (error result); reflexivity.
  - destruct (wait_loop cloud fuel operation opts p1) as [[r p2] t]. reflexivity.
Qed.

(** What a run of the loop looks like: pending answers only while it runs;
    one DONE answer, the last one, when it has exited. *)
Lemma wait_loop_spec (fuel : nat) (operation : Operation) (opts : OBOptions) (p : P) :
  exists pend,
    Forall (fun o => is_done o = false) pend
    /\ match outcome (wait_loop cloud fuel operation opts p) with
       | Running =>
           events (wait_loop cloud fuel operation opts p) = polls opts operation pend
           /\ List.length pend = fuel
       | Ok res =>
           is_done res = true /\ error res = None
           /\ events (wait_loop cloud fuel operation opts p)
              = (polls opts operation (pend ++ [res]) ++ [done_line])%list
       | Raise e =>
           exists res payload,
             is_done res = true /\ error res = Some payload
             /\ e = Exception payload
             /\ events (wait_loop cloud fuel operation opts p)
                = (polls opts operation (pend ++ [res]) ++ [done_line])%list
       | Exit _ => False
       end.
Proof.
  revert p. induction fuel as [|fuel IH]; intro p.
  - exists []. split; [constructor|]. simpl. split; reflexivity.
  - rewrite wait_loop_step.
    destruct (zoneOperations_wait cloud (project opts) (zone opts) (name operation) p)
      as [result p1].
    cbv zeta. destruct (is_done result) eqn:Hd.
    + exists []. split; [constructor|].
      destruct (error result) as [payload|] eqn:He; simpl.
      * exists result, payload. repeat split; auto.
      * repeat split; auto.
    + destruct (IH p1) as [pend [Hpend Hrun]].
      destruct (wait_loop cloud fuel operation opts p1) as [[r p2] t].
      exists (result :: pend). split; [constructor; assumption|].
      unfold outcome, events in *. simpl in *.
      destruct r as [res|c|e|].
      * destruct Hrun as (H1 & H2 & H3). repeat split; auto. now rewrite H3.
      * exact Hrun.
      * destruct Hrun as (res & payload & H1 & H2 & H3 & H4).
        exists res, payload. repeat split; auto. now rewrite H4.
      * destruct Hrun as (H1 & H2). split; [now rewrite H1 | now rewrite H2].
Qed.

(** Once the loop has exited, more fuel changes nothing. *)
Lemma wait_loop_more_fuel (fuel k : nat) (operation : Operation) (opts : OBOptions) (p : P) :
  outcome (wait_loop cloud fuel operation opts p) <> Running ->
  wait_loop cloud (fuel + k) operation opts p = wait_loop cloud fuel operation opts p.
Proof.
  revert p. induction fuel as [|fuel IH]; intros p Hrun.
  - exfalso. apply Hrun. reflexivity.
  - replace (S fuel + k)%nat with (S (fuel + k)) by reflexivity.
    rewrite !wait_loop_step. rewrite wait_loop_step in Hrun.
    destruct (zoneOperations_wait cloud (project opts) (zone opts) (name operation) p)
      as [result p1].
    cbv zeta in *. destruct (is_done result); [reflexivity|].
    rewrite IH; [reflexivity|].
    destruct (wait_loop cloud fuel operation opts p1) as [[r p2] t]. exact Hrun.
Qed.

Lemma wait_for_operation_run (fuel : nat) (operation : Operation) (opts : OBOptions) (p : P) :
  wait_for_operation cloud fuel operation opts p =
    match wait_loop cloud fuel operation opts p with
    | (r, p', t) =>
        (r, p', EvCall (C_wait_for_operation operation) :: waiting_line operation :: t)
    end.
Proof.
  unfold wait_for_operation, print_end, bind, log, waiting_line. cbn.
  destruct (wait_loop cloud fuel operation opts p) as [[r p'] t]. reflexivity.
Qed.

Lemma wait_for_operation_outcome (fuel : nat) (operation : Operation) (opts : OBOptions) (p : P) :
  outcome (wait_for_operation cloud fuel operation opts p)
  = outcome (wait_loop cloud fuel operation opts p).
Proof.
  rewrite wait_for_operation_run.
  destruct (wait_loop cloud fuel operation opts p) as [[r p'] t]. reflexivity.
Qed.

Lemma wait_for_operation_answers (fuel : nat) (operation : Operation) (opts : OBOptions) (p : P) :
  wait_answers (events (wait_for_operation cloud fuel operation opts p))
  = wait_answers (events (wait_loop cloud fuel operation opts p)).
Proof.
  rewrite wait_for_operation_run.
  destruct (wait_loop cloud fuel operation opts p) as [[r p'] t]. reflexivity.
Qed.

End Polling.

Lemma wait_loop_never_done {P : Type} (cloud : Provider P) (fuel : nat)
    (operation : Operation) (opts : OBOptions) (p : P) :
  (forall proj zn nm s, is_done (fst (zoneOperations_wait cloud proj zn nm s)) = false) ->
  outcome (wait_loop cloud fuel operation opts p) = Running.
Proof.
  intro Hnever. revert p. induction fuel as [|fuel IH]; intro p; [reflexivity|].
  rewrite wait_loop_step.
  pose proof (Hnever (project opts) (zone opts) (name operation) p) as Hp.
  destruct (zoneOperations_wait cloud (project opts) (zone opts) (name operation) p)
    as [result p1].
  simpl in Hp. cbv zeta. rewrite Hp.
  specialize (IH p1).
  destruct (wait_loop cloud fuel operation opts p1) as [[r p2] t]. exact IH.
Qed.

Lemma not_done_last (pend : list Operation) (res : Operation) :
  is_done res = true -> ~ Forall (fun o => is_done o = false) (pend ++ [res]).
Proof.
  intros Hd Hall. apply Forall_app in Hall. destruct Hall as [_ Hres].
  inversion Hres; subst. congruence.
Qed.

(** C1. [wait_for_operation] leaves its loop only on an answer whose status
    is DONE: when it has returned or raised, the last answer it received was
    DONE and every answer before was not.  While the answers are not DONE it
    keeps asking, so that whatever number of turns the loop is followed for,
    it has asked that many times and is still running; it never exits the
    process itself.  Every query is on the handle it was given. *)
Theorem wait_for_operation_exits_only_on_done (P : Type) (cloud : Provider P)
    (fuel : nat) (operation : Operation) (opts : OBOptions) (p : P) :
  let run := wait_for_operation cloud fuel operation opts p in
  let answers := wait_answers (events run) in
  (outcome run <> Running ->
   exists pend res,
     answers = (pend ++ [res])%list
     /\ Forall (fun o => is_done o = false) pend
     /\ is_done res = true)
  /\ (Forall (fun o => is_done o = false) answers ->
      outcome run = Running /\ List.length answers = fuel)
  /\ ((forall proj zn nm s, is_done (fst (zoneOperations_wait cloud proj zn nm s)) = false) ->
      outcome run = Running /\ List.length answers = fuel)
  /\ (forall code, outcome run <> Exit code)
  /\ provider_calls (events run) = polls opts operation answers.
Proof.
  cbv zeta.
  rewrite wait_for_operation_answers, wait_for_operation_outcome.
  assert (Hcalls : provider_calls (events (wait_for_operation cloud fuel operation opts p))
                   = provider_calls (events (wait_loop cloud fuel operation opts p))).
  { rewrite wait_for_operation_run.
    destruct (wait_loop cloud fuel operation opts p) as [[r p'] t]. reflexivity. }
  rewrite Hcalls. clear Hcalls.
  destruct (wait_loop_spec cloud fuel operation opts p) as [pend [Hpend Hrun]].
  assert (Hfilter : forall l, provider_calls (polls opts operation l) = polls opts operation l).
  { induction l as [|a l IH]; [reflexivity|]. unfold provider_calls in *. simpl.
    now rewrite IH. }
  assert (Hstill :
    Forall (fun o => is_done o = false)
      (wait_answers (events (wait_loop cloud fuel operation opts p))) ->
    outcome (wait_loop cloud fuel operation opts p) = Running
    /\ List.length (wait_answers (events (wait_loop cloud fuel operation opts p))) = fuel).
  { intro Hall.
    destruct (outcome (wait_loop cloud fuel operation opts p)) as [res|c|e|].
    - destruct Hrun as (Hd & _ & Hev). rewrite Hev in Hall.
      rewrite wait_answers_app, wait_answers_polls in Hall. simpl in Hall.
      rewrite app_nil_r in Hall. now apply not_done_last in Hall.
    - contradiction.
    - destruct Hrun as (res & payload & Hd & _ & _ & Hev). rewrite Hev in Hall.
      rewrite wait_answers_app, wait_answers_polls in Hall. simpl in Hall.
      rewrite app_nil_r in Hall. now apply not_done_last in Hall.
    - destruct Hrun as (Hev & Hlen). rewrite Hev, wait_answers_polls. auto. }
  split; [|split; [|split; [|split]]].
  - intro Hexit.
    destruct (outcome (wait_loop cloud fuel operation opts p)) as [res|c|e|].
    + destruct Hrun as (Hd & _ & Hev). exists pend, res. rewrite Hev.
      rewrite wait_answers_app, wait_answers_polls. simpl. rewrite app_nil_r. auto.
    + contradiction.
    + destruct Hrun as (res & payload & Hd & _ & _ & Hev). exists pend, res. rewrite Hev.
      rewrite wait_answers_app, wait_answers_polls. simpl. rewrite app_nil_r. auto.
    + contradiction.
  - exact Hstill.
  - intro Hnever. apply Hstill.
    pose proof (wait_loop_never_done cloud fuel operation opts p Hnever) as Hr.
    rewrite Hr in Hrun. destruct Hrun as (Hev & _).
    rewrite Hev, wait_answers_polls. exact Hpend.
  - intros code Hc. rewrite Hc in Hrun. exact Hrun.
  - destruct (outcome (wait_loop cloud fuel operation opts p)) as [res|c|e|].
    + destruct Hrun as (_ & _ & Hev). rewrite Hev.
      unfold provider_calls. rewrite filter_app. fold (provider_calls (polls opts operation (pend ++ [res]))).
      rewrite Hfilter, wait_answers_app, wait_answers_polls. simpl.
      now rewrite !app_nil_r.
    + contradiction.
    + destruct Hrun as (res & payload & _ & _ & _ & Hev). rewrite Hev.
      unfold provider_calls. rewrite filter_app. fold (provider_calls (polls opts operation (pend ++ [res]))).
      rewrite Hfilter, wait_answers_app, wait_answers_polls. simpl.
      now rewrite !app_nil_r.
    + destruct Hrun as (Hev & _). rewrite Hev, Hfilter, wait_answers_polls. reflexivity.
Qed.

Lemma wait_for_operation_exits_only_on_done_witness :
  (exists pend res,
     wait_answers
       (events (wait_for_operation scripted 5 (pending "op-1") (options_of example_args)
                  (script [] [pending "op-1"; pending "op-1"; finished "op-1" None])))
     = (pend ++ [res])%list
     /\ Forall (fun o => is_done o = false) pend
     /\ is_done res = true)
  /\ (outcome (wait_for_operation scripted 7 (pending "op-1") (options_of example_args)
                 (script [] [])) = Running
      /\ List.length
           (wait_answers
              (events (wait_for_operation scripted 7 (pending "op-1")
                         (options_of example_args) (script [] [])))) = 7%nat)
  /\ (outcome (wait_for_operation stalled 9 (pending "op-1") (options_of example_args) tt)
      = Running
      /\ List.length
           (wait_answers
              (events (wait_for_operation stalled 9 (pending "op-1")
                         (options_of example_args) tt))) = 9%nat).
Proof.
  split; [|split].
  - apply (proj1 (wait_for_operation_exits_only_on_done Script scripted 5 (pending "op-1")
                    (options_of example_args)
                    (script [] [pending "op-1"; pending "op-1"; finished "op-1" None]))).
    vm_compute. discriminate.
  - apply (proj1 (proj2 (wait_for_operation_exits_only_on_done Script scripted 7
                           (pending "op-1") (options_of example_args) (script [] [])))).
    vm_compute. repeat constructor.
  - apply (proj1 (proj2 (proj2 (wait_for_operation_exits_only_on_done unit stalled 9
                                  (pending "op-1") (options_of example_args) tt)))).
    intros proj zn nm s. reflexivity.
Defined.

(** C2. An answer in status DONE decides the result: with an error payload
    [wait_for_operation] raises an exception that carries that very payload,
    without one it returns the operation; more turns of the loop do not
    change the result. *)
Theorem done_answer_decides_result (P : Type) (cloud : Provider P)
    (fuel : nat) (operation : Operation) (opts : OBOptions) (p : P) (res : Operation) :
  let run := wait_for_operation cloud fuel operation opts p in
  In res (wait_answers (events run)) ->
  is_done res = true ->
  match error res with
  | Some payload => outcome run = Raise (Exception payload)
  | None => outcome run = Ok res
  end
  /\ (forall k, wait_for_operation cloud (fuel + k) operation opts p = run).
Proof.
  cbv zeta. rewrite wait_for_operation_answers, wait_for_operation_outcome.
  intros Hin Hd.
  destruct (wait_loop_spec cloud fuel operation opts p) as [pend [Hpend Hrun]].
  assert (Hnot : ~ In res pend).
  { intro H. rewrite Forall_forall in Hpend. apply Hpend in H. congruence. }
  assert (Hexit : outcome (wait_loop cloud fuel operation opts p) <> Running).
  { intro Hr. rewrite Hr in Hrun. destruct Hrun as (Hev & _).
    rewrite Hev, wait_answers_polls in Hin. contradiction. }
  split.
  - destruct (outcome (wait_loop cloud fuel operation opts p)) as [res0|c|e|].
    + destruct Hrun as (_ & Herr & Hev). rewrite Hev in Hin.
      rewrite wait_answers_app, wait_answers_polls in Hin. simpl in Hin.
      rewrite app_nil_r in Hin. apply in_app_or in Hin.
      destruct Hin as [Hin | [<- | []]]; [contradiction|].
      rewrite Herr. reflexivity.
    + contradiction.
    + destruct Hrun as (res0 & payload & _ & Herr & -> & Hev). rewrite Hev in Hin.
      rewrite wait_answers_app, wait_answers_polls in Hin. simpl in Hin.
      rewrite app_nil_r in Hin. apply in_app_or in Hin.
      destruct Hin as [Hin | [<- | []]]; [contradiction|].
      rewrite Herr. reflexivity.
    + congruence.
  - intro k. rewrite !wait_for_operation_run.
    now rewrite wait_loop_more_fuel.
Qed.

Lemma done_answer_decides_result_witness :
  (outcome (wait_for_operation scripted 4 (pending "op-1") (options_of example_args)
              (script [] [pending "op-1";
                          finished "op-1" (Some (PyDict [("errors", PyList [PyStr "QUOTA"])]))]))
   = Raise (Exception (PyDict [("errors", PyList [PyStr "QUOTA"])]))
   /\ forall k,
       wait_for_operation scripted (4 + k) (pending "op-1") (options_of example_args)
         (script [] [pending "op-1";
                     finished "op-1" (Some (PyDict [("errors", PyList [PyStr "QUOTA"])]))])
       = wait_for_operation scripted 4 (pending "op-1") (options_of example_args)
           (script [] [pending "op-1";
                       finished "op-1" (Some (PyDict [("errors", PyList [PyStr "QUOTA"])]))]))
  /\ (outcome (wait_for_operation scripted 4 (pending "op-1") (options_of example_args)
                 (script [] [finished "op-1" None]))
      = Ok (finished "op-1" None)
      /\ forall k,
          wait_for_operation scripted (4 + k) (pending "op-1") (options_of example_args)
            (script [] [finished "op-1" None])
          = wait_for_operation scripted 4 (pending "op-1") (options_of example_args)
              (script [] [finished "op-1" None])).
Proof.
  split.
  - apply (done_answer_decides_result Script scripted 4 (pending "op-1")
             (options_of example_args)
             (script [] [pending "op-1";
                         finished "op-1" (Some (PyDict [("errors", PyList [PyStr "QUOTA"])]))])
             (finished "op-1" (Some (PyDict [("errors", PyList [PyStr "QUOTA"])])))).
    + vm_compute. right. left. reflexivity.
    + reflexivity.
  - apply (done_answer_decides_result Script scripted 4 (pending "op-1")
             (options_of example_args) (script [] [finished "op-1" None])
             (finished "op-1" None)).
    + vm_compute. left. reflexivity.
    + reflexivity.
Defined.

(** ** One role *)

Section Provisioning.

Context {P : Type} (cloud : Provider P).

Lemma create_instances_run (fuel : nat) (opts : OBOptions) (net_int : PyVal)
    (inst_type : OBInstType) (p : P) :
  create_instances cloud fuel opts net_int inst_type p =
    match bulkInsert cloud (project opts) (zone opts) (body_of opts net_int inst_type) p with
    | (inl e, p1) =>
        (halt e, p1,
         (opening inst_type
          ++ EvBulkInsert (project opts) (zone opts) (body_of opts net_int inst_type) (inl e)
             :: report e)%list)
    | (inr op, p1) =>
        match wait_loop cloud fuel op opts p1 with
        | (r, p2, t) =>
            (forget r, p2,
             (opening inst_type
              ++ EvBulkInsert (project opts) (zone opts) (body_of opts net_int inst_type)
                   (inr op)
                 :: EvCall (C_wait_for_operation op) :: waiting_line op :: t)%list)
        end
    end.
Proof.
  unfold create_instances, traced, bulkInsert_execute, body_of, opening.
  unfold bind at 1. unfold log at 1. unfold bind at 1. unfold bind at 1.
  unfold log at 1. unfold ret at 1. unfold bind at 1. unfold bind at 1.
  unfold log at 1. unfold ret at 1. unfold bind at 1.
  destruct (bulkInsert cloud (project opts) (zone opts)
              (request_body opts inst_type
                 (setup_instance_properties opts (is_server_of inst_type) net_int
                    (setup_disks opts (is_server_of inst_type)))) p) as [[e|op] p1].
  - unfold halt, report, error_message, lift, bind, raise, ret, print, log, sys_exit.
    destruct (py_get (content e) "error") as [x|err]; [reflexivity|].
    destruct (py_get err "message") as [x|m]; reflexivity.
  - unfold bind. rewrite wait_for_operation_run.
    destruct (wait_loop cloud fuel op opts p1) as [[r p2] t].
    destruct r; unfold ret, forget; cbn [app]; rewrite ?app_nil_r; reflexivity.
Qed.

Lemma wait_loop_events (fuel : nat) (op : Operation) (opts : OBOptions) (p : P) :
  Forall (fun e => (exists a, e = EvWait (project opts) (zone opts) (name op) a)
                   \/ e = done_line)
         (events (wait_loop cloud fuel op opts p)).
Proof.
  revert p. induction fuel as [|fuel IH]; intro p; [constructor|].
  rewrite wait_loop_step.
  destruct (zoneOperations_wait cloud (project opts) (zone opts) (name op) p)
    as [result p1].
  cbv zeta. destruct (is_done result).
  - destruct (error result); unfold events; simpl;
      (constructor; [left; eexists; reflexivity|]);
      (constructor; [right; reflexivity|]); constructor.
  - specialize (IH p1). destruct (wait_loop cloud fuel op opts p1) as [[r p2] t].
    unfold events in *; simpl in *. constructor; [left; eexists; reflexivity | exact IH].
Qed.

Lemma wait_loop_calls (fuel : nat) (op : Operation) (opts : OBOptions) (p : P) :
  provider_calls (events (wait_loop cloud fuel op opts p))
  = polls opts op (wait_answers (events (wait_loop cloud fuel op opts p))).
Proof.
  pose proof (wait_loop_events fuel op opts p) as H.
  induction (events (wait_loop cloud fuel op opts p)) as [|e t IH]; [reflexivity|].
  inversion H as [|? ? He Ht]; subst. specialize (IH Ht).
  destruct He as [[a ->] | ->]; unfold provider_calls in *; simpl; now rewrite IH.
Qed.

Lemma provider_calls_app (t1 t2 : list Event) :
  provider_calls (t1 ++ t2) = (provider_calls t1 ++ provider_calls t2)%list.
Proof. apply filter_app. Qed.

Lemma provider_calls_report (e : HttpError) : provider_calls (report e) = [].
Proof. unfold report. destruct (error_message e); reflexivity. Qed.

Lemma provider_calls_opening (inst_type : OBInstType) :
  provider_calls (opening inst_type) = [].
Proof. reflexivity. Qed.

Lemma provider_calls_preamble (t : list Event) :
  Forall (fun e => is_preamble e = true) t -> provider_calls t = [].
Proof.
  induction 1 as [|e t He _ IH]; [reflexivity|].
  unfold provider_calls in *. simpl. rewrite IH.
  destruct e; try reflexivity; discriminate He.
Qed.

(** The provider calls of one role are its flow; the role completes only
    on a DONE answer without error, the last answer of the flow. *)
Lemma create_instances_calls (fuel : nat) (opts : OBOptions) (net_int : PyVal)
    (inst_type : OBInstType) (p : P) :
  exists resp answers,
    provider_calls (events (create_instances cloud fuel opts net_int inst_type p))
    = flow opts net_int inst_type resp answers
    /\ (outcome (create_instances cloud fuel opts net_int inst_type p) = Ok tt ->
        exists op pend res,
          resp = inr op /\ answers = (pend ++ [res])%list
          /\ Forall (fun o => is_done o = false) pend
          /\ is_done res = true /\ error res = None).
Proof.
  rewrite create_instances_run.
  destruct (bulkInsert cloud (project opts) (zone opts) (body_of opts net_int inst_type) p)
    as [[e|op] p1].
  - exists (inl e), []. unfold events, outcome; cbn [fst snd]. split.
    + rewrite provider_calls_app, provider_calls_opening. cbn [app].
      unfold provider_calls at 1. cbn [filter is_provider_call].
      fold (provider_calls (report e)).
      now rewrite provider_calls_report.
    + unfold halt. destruct (error_message e); discriminate.
  - pose proof (wait_loop_calls fuel op opts p1) as Hcalls.
    destruct (wait_loop_spec cloud fuel op opts p1) as [pend [Hpend Hrun]].
    destruct (wait_loop cloud fuel op opts p1) as [[r p2] t].
    unfold events, outcome in *; cbn [fst snd] in *.
    exists (inr op), (wait_answers t). split.
    + rewrite provider_calls_app, provider_calls_opening. cbn [app].
      unfold provider_calls at 1. cbn [filter is_provider_call].
      fold (provider_calls t). unfold flow.
      now rewrite Hcalls.
    + destruct r as [res|c|x|]; simpl; try discriminate. intros _.
      destruct Hrun as (Hd & Herr & Hev). exists op, pend, res. rewrite Hev.
      rewrite wait_answers_app, wait_answers_polls. simpl. rewrite app_nil_r. auto.
Qed.

(** No call of one role is made on behalf of the other. *)
Lemma create_instances_role (fuel : nat) (opts : OBOptions) (net_int : PyVal)
    (inst_type : OBInstType) (p : P) :
  Forall (fun e => for_role (other inst_type) e = false)
         (events (create_instances cloud fuel opts net_int inst_type p)).
Proof.
  rewrite create_instances_run.
  destruct (bulkInsert cloud (project opts) (zone opts) (body_of opts net_int inst_type) p)
    as [[e|op] p1].
  - unfold events; cbn [snd]. apply Forall_app. split.
    + destruct inst_type; repeat constructor.
    + constructor; [reflexivity|]. unfold report.
      destruct (error_message e); repeat constructor.
  - pose proof (wait_loop_events fuel op opts p1) as Hev.
    destruct (wait_loop cloud fuel op opts p1) as [[r p2] t].
    unfold events in *; cbn [snd] in *. apply Forall_app. split.
    + destruct inst_type; repeat constructor.
    + repeat (constructor; [reflexivity|]).
      eapply Forall_impl; [|exact Hev]. intros ev [[a ->] | ->]; reflexivity.
Qed.

(** A rejected submission is followed by its report only. *)
Lemma create_instances_rejected (fuel : nat) (opts : OBOptions) (net_int : PyVal)
    (inst_type : OBInstType) (p : P) (proj zn : string) (body : PyVal) (e : HttpError) :
  In (EvBulkInsert proj zn body (inl e))
     (events (create_instances cloud fuel opts net_int inst_type p)) ->
  outcome (create_instances cloud fuel opts net_int inst_type p) = halt e
  /\ exists before,
       events (create_instances cloud fuel opts net_int inst_type p)
       = (before ++ EvBulkInsert proj zn body (inl e) :: report e)%list
       /\ provider_calls before = [].
Proof.
  rewrite create_instances_run.
  destruct (bulkInsert cloud (project opts) (zone opts) (body_of opts net_int inst_type) p)
    as [[e'|op] p1].
  - unfold events, outcome; cbn [fst snd]. intro Hin. apply in_app_or in Hin.
    destruct Hin as [Hin | [Heq | Hin]].
    + destruct Hin as [H | [H | [H | []]]]; discriminate H.
    + injection Heq as <- <- <- <-. split; [reflexivity|].
      exists (opening inst_type). split; reflexivity.
    + unfold report in Hin. destruct (error_message e'); simpl in Hin.
      * contradiction.
      * destruct Hin as [H | []]. discriminate H.
  - pose proof (wait_loop_events fuel op opts p1) as Hev.
    destruct (wait_loop cloud fuel op opts p1) as [[r p2] t].
    unfold events, outcome in *; cbn [fst snd] in *. intro Hin. exfalso.
    apply in_app_or in Hin.
    destruct Hin as [Hin | [Heq | [Heq | [Heq | Hin]]]]; try discriminate.
    + destruct Hin as [H | [H | [H | []]]]; discriminate H.
    + rewrite Forall_forall in Hev. apply Hev in Hin.
      destruct Hin as [[a H] | H]; discriminate H.
Qed.

End Provisioning.

(** ** The whole run *)

Lemma gtb_pos (x : Z) : x > 0 -> (x >? 0) = true.
Proof. intro H. apply Z.gtb_lt. lia. Qed.

Lemma gtb_nonpos (x : Z) : x <= 0 -> (x >? 0) = false.
Proof. intro H. rewrite Z.gtb_ltb. apply Z.ltb_ge. exact H. Qed.

Section Main.

Context {P : Type} (cloud : Provider P).

Lemma bind_ok {A B : Type} (m : M P A) (f : A -> M P B) (p p1 : P) (a : A)
    (t1 : list Event) :
  m p = (Ok a, p1, t1) ->
  bind m f p = match f a p1 with (r, p2, t2) => (r, p2, (t1 ++ t2)%list) end.
Proof. intro H. unfold bind. rewrite H. reflexivity. Qed.

Lemma quiet_ret {A : Type} (a : A) : quiet (@ret P A a).
Proof. intro p. exists a, p, []. split; [reflexivity | constructor]. Qed.

Lemma quiet_log (e : Event) : is_preamble e = true -> quiet (@log P e).
Proof.
  intros He p. exists tt, p, [e]. split; [reflexivity|]. constructor; [exact He | constructor].
Qed.

Lemma quiet_bind {A B : Type} (m : M P A) (f : A -> M P B) :
  quiet m -> (forall a, quiet (f a)) -> quiet (bind m f).
Proof.
  intros Hm Hf p. destruct (Hm p) as (a & p1 & t1 & Hrun & Ht1).
  destruct (Hf a p1) as (b & p2 & t2 & Hrun2 & Ht2).
  exists b, p2, (t1 ++ t2)%list. split.
  - rewrite (bind_ok m f p p1 a t1 Hrun), Hrun2. reflexivity.
  - apply Forall_app. split; assumption.
Qed.

Lemma quiet_verify (q : VerifyCall) : quiet (verify cloud q).
Proof.
  intro p. unfold verify. destruct (utils_verify cloud q p) as [found p'].
  exists found, p', [EvVerify q found]. split; [reflexivity|]. repeat constructor.
Qed.

Lemma quiet_verify_optional (o : option string) (q : string -> VerifyCall) :
  quiet (verify_optional cloud o q).
Proof.
  unfold verify_optional. destruct o as [s|]; [|apply quiet_ret].
  destruct (truthy (Some s)); [apply quiet_verify | apply quiet_ret].
Qed.

Lemma verify_inputs_quiet (args : Args) : quiet (verify_inputs cloud args).
Proof.
  unfold verify_inputs.
  apply quiet_bind; [apply quiet_log; reflexivity | intros _].
  repeat (apply quiet_bind;
          [ first [apply quiet_verify | apply quiet_verify_optional]
          | intros [|]; cbn [negb]; [|apply quiet_ret] ]).
  apply quiet_ret.
Qed.

(** [__main__] up to provisioning either stops with exit code 1 or hands
    over to the two role steps, with the normalized options. *)
Lemma main_run (fuel : nat) (args : Args) (p : P) :
  args_num_servers args + args_num_clients args >= 1 ->
  exists pre p1,
    Forall (fun e => is_preamble e = true) pre
    /\ (main cloud fuel args p = (Exit 1, p1, pre)
        \/ main cloud fuel args p =
             match provision cloud fuel args (options_of args)
                     (setup_network_interface (options_of args)) p1 with
             | (r, p2, t) => (r, p2, (pre ++ t)%list)
             end).
Proof.
  intro Htotal. unfold main.
  replace (args_num_servers args + args_num_clients args <? 1) with false
    by (symmetry; apply Z.ltb_ge; lia).
  destruct (verify_inputs_quiet args p) as (ok & p0 & t0 & Hv & Ht0).
  rewrite (bind_ok _ _ p p0 ok t0 Hv).
  destruct ok; cbn [negb].
  - rewrite (bind_ok _ _ p0 p0 (options_of args) _ (OBOptions_init_run args p0)).
    set (tO := EvCall C_OBOptions :: _).
    assert (HtO : Forall (fun e => is_preamble e = true) tO).
    { subst tO. constructor; [reflexivity|].
      destruct (args_enable_tier1_networking args
                && negb (opt_str_eqb (args_nic_type args) (Some "GVNIC")));
        repeat constructor. }
    destruct (discovery_build cloud p0) as [compute p1] eqn:Hb.
    assert (Hbuild : build cloud p0 = (Ok compute, p1, [EvBuild compute])).
    { unfold build. rewrite Hb. reflexivity. }
    rewrite (bind_ok _ _ p0 p1 compute _ Hbuild).
    destruct compute; cbn [negb].
    + rewrite (bind_ok _ _ p1 p1 (setup_network_interface (options_of args))
                 [EvCall C_setup_network_interface] eq_refl).
      fold (provision cloud fuel args (options_of args)
              (setup_network_interface (options_of args))).
      exists (t0 ++ tO ++ [EvBuild true; EvCall C_setup_network_interface])%list, p1.
      split.
      * apply Forall_app. split; [exact Ht0|]. apply Forall_app. split; [exact HtO|].
        repeat constructor.
      * right.
        destruct (provision cloud fuel args (options_of args)
                    (setup_network_interface (options_of args)) p1) as [[r p2] t].
        cbn [app]. rewrite <- !app_assoc. reflexivity.
    + exists (t0 ++ tO ++ [EvBuild false; EvPrint [Lit no_credentials_message] newline])%list,
             p1.
      split.
      * apply Forall_app. split; [exact Ht0|]. apply Forall_app. split; [exact HtO|].
        repeat constructor.
      * left. reflexivity.
  - exists t0, p0. split; [exact Ht0|]. left.
    unfold sys_exit. rewrite app_nil_r. reflexivity.
Qed.

Lemma preamble_not_for_role (r : OBInstType) (t : list Event) :
  Forall (fun e => is_preamble e = true) t ->
  Forall (fun e => for_role r e = false) t.
Proof.
  intro H. eapply Forall_impl; [|exact H].
  intros e He. destruct e as [| c | | | |]; try reflexivity.
  destruct c; try reflexivity; discriminate He.
Qed.

Lemma main_events (fuel : nat) (args : Args) (p : P) :
  args_num_servers args + args_num_clients args >= 1 ->
  exists pre,
    Forall (fun e => is_preamble e = true) pre
    /\ ((outcome (main cloud fuel args p) = Exit 1
         /\ events (main cloud fuel args p) = pre)
        \/ exists p1,
             outcome (main cloud fuel args p)
             = outcome (provision cloud fuel args (options_of args)
                          (setup_network_interface (options_of args)) p1)
             /\ events (main cloud fuel args p)
                = (pre ++ events (provision cloud fuel args (options_of args)
                                    (setup_network_interface (options_of args)) p1))%list).
Proof.
  intro Htotal. destruct (main_run fuel args p Htotal) as (pre & p1 & Hpre & [Hrun | Hrun]).
  - exists pre. split; [exact Hpre|]. left. rewrite Hrun. split; reflexivity.
  - exists pre. split; [exact Hpre|]. right. exists p1. rewrite Hrun.
    destruct (provision cloud fuel args (options_of args)
                (setup_network_interface (options_of args)) p1) as [[r p2] t].
    split; reflexivity.
Qed.

Lemma bind_events {A B : Type} (m : M P A) (f : A -> M P B) (p : P) :
  events (bind m f p)
  = (events (m p)
     ++ match outcome (m p) with
        | Ok a => events (f a (final (m p)))
        | _ => []
        end)%list.
Proof.
  unfold bind, events, outcome, final. destruct (m p) as [[r p1] t1]. cbn [fst snd].
  destruct r as [a|c|e|]; cbn [fst snd]; rewrite ?app_nil_r; try reflexivity.
  destruct (f a p1) as [[r2 p2] t2]. reflexivity.
Qed.

Lemma bind_outcome {A B : Type} (m : M P A) (f : A -> M P B) (p : P) :
  outcome (bind m f p)
  = match outcome (m p) with
    | Ok a => outcome (f a (final (m p)))
    | Exit c => Exit c
    | Raise e => Raise e
    | Running => Running
    end.
Proof.
  unfold bind, events, outcome, final. destruct (m p) as [[r p1] t1]. cbn [fst snd].
  destruct r as [a|c|e|]; cbn [fst snd]; try reflexivity.
  destruct (f a p1) as [[r2 p2] t2]. reflexivity.
Qed.

(** Both roles requested: the provider sees the server flow and, only once
    that flow has ended on a DONE answer without error, the client flow. *)
Lemma both_roles_calls (fuel : nat) (args : Args) (p : P) :
  args_num_servers args > 0 ->
  args_num_clients args > 0 ->
  let opts := options_of args in
  let net_int := setup_network_interface opts in
  let calls := provider_calls (events (main cloud fuel args p)) in
  calls = []
  \/ (exists resp_s answers_s, calls = flow opts net_int SERVER resp_s answers_s)
  \/ (exists op_s pend res resp_c answers_c,
        calls = (flow opts net_int SERVER (inr op_s) (pend ++ [res])
                 ++ flow opts net_int CLIENT resp_c answers_c)%list
        /\ Forall (fun o => is_done o = false) pend
        /\ is_done res = true
        /\ error res = None).
Proof.
  intros Hs Hc. cbv zeta.
  destruct (main_events fuel args p ltac:(lia)) as (pre & Hpre & [[_ Hev] | (p1 & _ & Hev)]);
    rewrite Hev.
  - left. now apply provider_calls_preamble.
  - rewrite provider_calls_app, (provider_calls_preamble pre Hpre). cbn [app].
    unfold provision.
    rewrite (gtb_pos _ Hs), (gtb_pos _ Hc).
    rewrite bind_events, provider_calls_app.
    set (opts := options_of args). set (net_int := setup_network_interface opts).
    destruct (create_instances_calls cloud fuel opts net_int SERVER p1)
      as (resp_s & answers_s & Hcalls_s & Hok_s).
    rewrite Hcalls_s.
    destruct (outcome (create_instances cloud fuel opts net_int SERVER p1)) as [[]|c|e|].
    + destruct (Hok_s eq_refl) as (op_s & pend & res & -> & -> & Hpend & Hd & Herr).
      destruct (create_instances_calls cloud fuel opts net_int CLIENT
                  (final (create_instances cloud fuel opts net_int SERVER p1)))
        as (resp_c & answers_c & Hcalls_c & _).
      rewrite Hcalls_c. right. right.
      exists op_s, pend, res, resp_c, answers_c. auto.
    + right. left. exists resp_s, answers_s. now rewrite app_nil_r.
    + right. left. exists resp_s, answers_s. now rewrite app_nil_r.
    + right. left. exists resp_s, answers_s. now rewrite app_nil_r.
Qed.

(** A rejected submission ends the two role steps. *)
Lemma provision_rejected (fuel : nat) (args : Args) (opts : OBOptions) (net_int : PyVal)
    (p : P) (proj zn : string) (body : PyVal) (e : HttpError) :
  In (EvBulkInsert proj zn body (inl e))
     (events (provision cloud fuel args opts net_int p)) ->
  outcome (provision cloud fuel args opts net_int p) = halt e
  /\ exists before,
       events (provision cloud fuel args opts net_int p)
       = (before ++ EvBulkInsert proj zn body (inl e) :: report e)%list.
Proof.
  unfold provision. rewrite bind_events, bind_outcome.
  set (S := if args_num_servers args >? 0 then _ else _).
  set (C := if args_num_clients args >? 0 then _ else _).
  assert (HS : In (EvBulkInsert proj zn body (inl e)) (events (S p)) ->
               outcome (S p) = halt e
               /\ exists before,
                    events (S p) = (before ++ EvBulkInsert proj zn body (inl e) :: report e)%list).
  { subst S. destruct (args_num_servers args >? 0).
    - intro Hin. destruct (create_instances_rejected cloud _ _ _ _ _ _ _ _ _ Hin)
        as (Ho & before & Hev & _).
      split; [exact Ho | exists before; exact Hev].
    - intros []. }
  assert (HC : forall q, In (EvBulkInsert proj zn body (inl e)) (events (C q)) ->
               outcome (C q) = halt e
               /\ exists before,
                    events (C q) = (before ++ EvBulkInsert proj zn body (inl e) :: report e)%list).
  { subst C. destruct (args_num_clients args >? 0).
    - intros q Hin. destruct (create_instances_rejected cloud _ _ _ _ _ _ _ _ _ Hin)
        as (Ho & before & Hev & _).
      split; [exact Ho | exists before; exact Hev].
    - intros q []. }
  clearbody S C. intro Hin. apply in_app_or in Hin.
  destruct (outcome (S p)) as [a|c|x|] eqn:Ho.
  - destruct Hin as [Hin | Hin].
    + apply HS in Hin. destruct Hin as [Hh _]. unfold halt in Hh.
      destruct (error_message e); discriminate Hh.
    + apply HC in Hin. destruct Hin as (Hh & before & Hev). split; [exact Hh|].
      exists (events (S p) ++ before)%list. rewrite Hev, app_assoc. reflexivity.
  - destruct Hin as [Hin | []]. apply HS in Hin. destruct Hin as (Hh & before & Hev).
    split; [exact Hh|]. exists before. now rewrite app_nil_r.
  - destruct Hin as [Hin | []]. apply HS in Hin. destruct Hin as (Hh & before & Hev).
    split; [exact Hh|]. exists before. now rewrite app_nil_r.
  - destruct Hin as [Hin | []]. apply HS in Hin. destruct Hin as (Hh & before & Hev).
    split; [exact Hh|]. exists before. now rewrite app_nil_r.
Qed.

End Main.

(** C5. A submission the provider rejects ends the run: the trace stops at
    the rejected submission followed by the report of the provider's
    message (exit code 1; an error body without the expected structure
    makes the extraction raise instead), and nothing is submitted or polled
    afterwards.  With both roles requested, a rejected first submission is
    the server's and stays the only provider call; such a run exists. *)
Theorem rejected_submission_halts :
  (forall (P : Type) (cloud : Provider P) (fuel : nat) (args : Args) (p : P),
      let run := main cloud fuel args p in
      let opts := options_of args in
      let net_int := setup_network_interface opts in
      (forall proj zn body e,
          In (EvBulkInsert proj zn body (inl e)) (events run) ->
          outcome run = halt e
          /\ (exists before,
                 events run = (before ++ EvBulkInsert proj zn body (inl e) :: report e)%list)
          /\ (forall m, error_message e = inr m ->
                outcome run = Exit 1
                /\ exists before,
                     events run
                     = (before ++ [EvBulkInsert proj zn body (inl e);
                                   EvPrint [Lit "Error: "; Fmt m] newline])%list))
      /\ (args_num_servers args > 0 -> args_num_clients args > 0 ->
          forall proj zn body e rest,
            provider_calls (events run) = EvBulkInsert proj zn body (inl e) :: rest ->
            body = body_of opts net_int SERVER /\ rest = []))
  /\ (exists (args : Args) (s : Script),
        let run := main scripted 3 args s in
        let opts := options_of args in
        let net_int := setup_network_interface opts in
        args_num_servers args > 0 /\ args_num_clients args > 0
        /\ outcome run = Exit 1
        /\ provider_calls (events run)
           = [EvBulkInsert (project opts) (zone opts) (body_of opts net_int SERVER)
                (inl quota_error)]
        /\ last (events run) done_line
           = EvPrint [Lit "Error: "; Fmt (PyStr "quota exceeded")] newline).
Proof.
  split.
  - intros P cloud fuel args p. cbv zeta. split.
    + intros proj zn body e Hin.
      assert (Hmain :
        outcome (main cloud fuel args p) = halt e
        /\ exists before,
             events (main cloud fuel args p)
             = (before ++ EvBulkInsert proj zn body (inl e) :: report e)%list).
      { destruct (Z_lt_ge_dec (args_num_servers args + args_num_clients args) 1)
          as [Hzero | Htotal].
        - exfalso. unfold main in Hin.
          replace (args_num_servers args + args_num_clients args <? 1) with true in Hin
            by (symmetry; apply Z.ltb_lt; lia).
          destruct Hin as [H | []]. discriminate H.
        - destruct (main_events cloud fuel args p Htotal)
            as (pre & Hpre & [[_ Hev] | (p1 & Ho & Hev)]).
          + exfalso. rewrite Hev in Hin. rewrite Forall_forall in Hpre.
            apply Hpre in Hin. discriminate Hin.
          + rewrite Hev in Hin. apply in_app_or in Hin. destruct Hin as [Hin | Hin].
            * exfalso. rewrite Forall_forall in Hpre. apply Hpre in Hin. discriminate Hin.
            * apply provision_rejected in Hin. destruct Hin as (Hh & before & Hb).
              split; [congruence|]. exists (pre ++ before)%list.
              rewrite Hev, Hb, app_assoc. reflexivity. }
      destruct Hmain as (Hh & before & Hev).
      split; [exact Hh|]. split; [exists before; exact Hev|].
      intros m Hm. unfold halt in Hh. unfold report in Hev. rewrite Hm in Hh, Hev.
      split; [exact Hh | exists before; exact Hev].
    + intros Hs Hc proj zn body e rest Hcalls.
      destruct (both_roles_calls cloud fuel args p Hs Hc)
        as [Hnone | [(resp_s & answers_s & Hflow) | (op_s & pend & res & resp_c & answers_c & Hflow & _)]];
        rewrite Hcalls in *.
      * discriminate Hnone.
      * unfold flow in Hflow. injection Hflow as _ _ Hbody Hresp Hrest.
        subst resp_s. split; assumption.
      * unfold flow in Hflow. cbn [app] in Hflow. injection Hflow as _ _ _ Hresp _.
        discriminate Hresp.
  - exists example_args, (script [inl quota_error] []). cbv zeta.
    repeat split; try reflexivity.
Qed.

Lemma rejected_submission_halts_witness :
  outcome (main scripted 3 example_args (script [inl quota_error] [])) = halt quota_error
  /\ (exists before,
        events (main scripted 3 example_args (script [inl quota_error] []))
        = (before
           ++ EvBulkInsert "proj" "us-central1-a"
                (body_of (options_of example_args)
                   (setup_network_interface (options_of example_args)) SERVER)
                (inl quota_error)
              :: report quota_error)%list)
  /\ (forall m, error_message quota_error = inr m ->
        outcome (main scripted 3 example_args (script [inl quota_error] [])) = Exit 1
        /\ exists before,
             events (main scripted 3 example_args (script [inl quota_error] []))
             = (before
                ++ [EvBulkInsert "proj" "us-central1-a"
                      (body_of (options_of example_args)
                         (setup_network_interface (options_of example_args)) SERVER)
                      (inl quota_error);
                    EvPrint [Lit "Error: "; Fmt m] newline])%list).
Proof.
  apply (proj1 (proj1 rejected_submission_halts Script scripted 3%nat example_args
                  (script [inl quota_error] []))).
  vm_compute. do 13 right. left. reflexivity.
Defined.

(** C8. With fewer than one instance requested in total the run prints the
    error and exits with code 1 at once: the trace holds that line only (no
    validation query, no [OBOptions], no client, no submission, no poll)
    and the provider is left as it was. *)
Theorem zero_instances_is_an_error (P : Type) (cloud : Provider P) (fuel : nat)
    (args : Args) (p : P) :
  args_num_servers args + args_num_clients args < 1 ->
  main cloud fuel args p = (Exit 1, p, [EvPrint [Lit zero_instances_message] newline]).
Proof.
  intro Hzero. unfold main.
  replace (args_num_servers args + args_num_clients args <? 1) with true
    by (symmetry; apply Z.ltb_lt; lia).
  reflexivity.
Qed.

Lemma zero_instances_is_an_error_witness :
  main scripted 3 (with_counts example_args 0 0) (script [] [])
  = (Exit 1, script [] [], [EvPrint [Lit zero_instances_message] newline]).
Proof.
  apply (zero_instances_is_an_error Script scripted 3 (with_counts example_args 0 0)
           (script [] [])).
  simpl. lia.
Defined.

(** C9. With both roles requested the provider calls of a run are, in this
    order, the server's submission, the polls of the server's operation
    and, only when the last of these polls was answered DONE (without
    error: the error is raised and ends the run), the client's submission
    and the polls of the client's operation.  The client is thus submitted
    only after the server's operation was seen DONE, and the calls of the
    two roles do not interleave. *)
Theorem roles_run_in_sequence (P : Type) (cloud : Provider P) (fuel : nat)
    (args : Args) (p : P) :
  args_num_servers args > 0 ->
  args_num_clients args > 0 ->
  let opts := options_of args in
  let net_int := setup_network_interface opts in
  let calls := provider_calls (events (main cloud fuel args p)) in
  calls = []
  \/ (exists resp_s answers_s, calls = flow opts net_int SERVER resp_s answers_s)
  \/ (exists op_s pend res resp_c answers_c,
        calls = (flow opts net_int SERVER (inr op_s) (pend ++ [res])
                 ++ flow opts net_int CLIENT resp_c answers_c)%list
        /\ Forall (fun o => is_done o = false) pend
        /\ is_done res = true
        /\ error res = None).
Proof. exact (both_roles_calls cloud fuel args p). Qed.

Lemma roles_run_in_sequence_witness :
  let opts := options_of example_args in
  let net_int := setup_network_interface opts in
  let s := script [inr (pending "op-s"); inr (pending "op-c")]
                  [pending "op-s"; finished "op-s" None; finished "op-c" None] in
  let calls := provider_calls (events (main scripted 3 example_args s)) in
  (calls = []
   \/ (exists resp_s answers_s, calls = flow opts net_int SERVER resp_s answers_s)
   \/ (exists op_s pend res resp_c answers_c,
         calls = (flow opts net_int SERVER (inr op_s) (pend ++ [res])
                  ++ flow opts net_int CLIENT resp_c answers_c)%list
         /\ Forall (fun o => is_done o = false) pend
         /\ is_done res = true
         /\ error res = None))
  /\ calls = (flow opts net_int SERVER (inr (pending "op-s"))
                [pending "op-s"; finished "op-s" None]
              ++ flow opts net_int CLIENT (inr (pending "op-c")) [finished "op-c" None])%list.
Proof.
  split.
  - apply (roles_run_in_sequence Script scripted 3 example_args
             (script [inr (pending "op-s"); inr (pending "op-c")]
                     [pending "op-s"; finished "op-s" None; finished "op-c" None]));
      simpl; lia.
  - vm_compute. reflexivity.
Defined.

(** C10. A role whose count is not positive, while the total is at least
    one, is skipped: no [create_instances], [setup_disks] or
    [setup_instance_properties] call is made for it, and the provider calls
    of the run are those of the other role only (one submission, whose
    count is the other role's and at least 1, and the polls of the operation
    it returned), or none at all when the run stops earlier. *)
Theorem nonpositive_role_is_skipped (P : Type) (cloud : Provider P) (fuel : nat)
    (args : Args) (p : P) (r : OBInstType) :
  count_of args r <= 0 ->
  args_num_servers args + args_num_clients args >= 1 ->
  let opts := options_of args in
  let net_int := setup_network_interface opts in
  let run := main cloud fuel args p in
  Forall (fun e => for_role r e = false) (events run)
  /\ (provider_calls (events run) = []
      \/ exists resp answers,
           provider_calls (events run) = flow opts net_int (other r) resp answers)
  /\ field "count" (body_of opts net_int (other r))
     = Some (PyInt (count_of args (other r)))
  /\ count_of args (other r) >= 1.
Proof.
  intros Hr Htotal. cbv zeta.
  assert (Hother : count_of args (other r) >= 1).
  { destruct r; simpl in *; lia. }
  split; [|split; [|split]].
  - destruct (main_events cloud fuel args p Htotal)
      as (pre & Hpre & [[_ Hev] | (p1 & _ & Hev)]); rewrite Hev.
    + now apply preamble_not_for_role.
    + apply Forall_app. split; [now apply preamble_not_for_role|].
      unfold provision. rewrite bind_events.
      destruct r; simpl in Hr, Hother.
      * rewrite (gtb_nonpos _ Hr), (gtb_pos (args_num_clients args)) by lia.
        unfold events at 1, outcome, final, ret. cbn [fst snd app].
        apply (create_instances_role cloud fuel _ _ CLIENT).
      * rewrite (gtb_nonpos _ Hr), (gtb_pos (args_num_servers args)) by lia.
        apply Forall_app. split.
        -- apply (create_instances_role cloud fuel _ _ SERVER).
        -- destruct (outcome (create_instances cloud fuel (options_of args)
                                (setup_network_interface (options_of args)) SERVER p1));
             constructor.
  - destruct (main_events cloud fuel args p Htotal)
      as (pre & Hpre & [[_ Hev] | (p1 & _ & Hev)]); rewrite Hev.
    + left. now apply provider_calls_preamble.
    + right. rewrite provider_calls_app, (provider_calls_preamble pre Hpre). cbn [app].
      unfold provision. rewrite bind_events.
      destruct r; simpl in Hr, Hother.
      * rewrite (gtb_nonpos _ Hr), (gtb_pos (args_num_clients args)) by lia.
        unfold events at 1, outcome, final, ret. cbn [fst snd app].
        destruct (create_instances_calls cloud fuel (options_of args)
                    (setup_network_interface (options_of args)) CLIENT p1)
          as (resp & answers & Hcalls & _).
        exists resp, answers. exact Hcalls.
      * rewrite (gtb_nonpos _ Hr), (gtb_pos (args_num_servers args)) by lia.
        destruct (create_instances_calls cloud fuel (options_of args)
                    (setup_network_interface (options_of args)) SERVER p1)
          as (resp & answers & Hcalls & _).
        exists resp, answers. rewrite provider_calls_app, Hcalls.
        destruct (outcome (create_instances cloud fuel (options_of args)
                             (setup_network_interface (options_of args)) SERVER p1));
          unfold events, ret; cbn [snd]; now rewrite app_nil_r.
  - destruct r; reflexivity.
  - exact Hother.
Qed.

Lemma nonpositive_role_is_skipped_witness :
  let args := with_counts example_args 0 3 in
  let opts := options_of args in
  let net_int := setup_network_interface opts in
  let run := main scripted 3 args
               (script [inr (pending "op-c")] [pending "op-c"; finished "op-c" None]) in
  (Forall (fun e => for_role SERVER e = false) (events run)
   /\ (provider_calls (events run) = []
       \/ exists resp answers,
            provider_calls (events run) = flow opts net_int CLIENT resp answers)
   /\ field "count" (body_of opts net_int CLIENT) = Some (PyInt 3)
   /\ 3 >= 1)
  /\ provider_calls (events run)
     = flow opts net_int CLIENT (inr (pending "op-c")) [pending "op-c"; finished "op-c" None].
Proof.
  split.
  - apply (nonpositive_role_is_skipped Script scripted 3 (with_counts example_args 0 3)
             (script [inr (pending "op-c")] [pending "op-c"; finished "op-c" None]) SERVER);
      simpl; lia.
  - vm_compute. reflexivity.
Defined.

(** * Further properties *)

(** ** Validation *)

Section Validation.

Context {P : Type} (cloud : Provider P).

Lemma verify_run (q : VerifyCall) (p : P) :
  verify cloud q p
  = (Ok (fst (utils_verify cloud q p)), snd (utils_verify cloud q p),
     [EvVerify q (fst (utils_verify cloud q p))]).
Proof. unfold verify. destruct (utils_verify cloud q p). reflexivity. Qed.

(** [verify_inputs] asks the expected queries in order, stops at the first
    one that fails, and answers whether all of them succeeded. *)
Lemma verify_inputs_shape (args : Args) (p : P) :
  let run := verify_inputs cloud args p in
  let answers := verify_answers (events run) in
  events run
  = EvCall C_verify_inputs :: map (fun qa => EvVerify (fst qa) (snd qa)) answers
  /\ outcome run = Ok (forallb snd answers)
  /\ (exists rest, expected_queries args = (map fst answers ++ rest)%list)
  /\ Forall (fun qa => snd qa = true) (removelast answers)
  /\ (outcome run = Ok true -> map fst answers = expected_queries args).
Proof.
  cbv zeta. unfold verify_inputs, verify_optional, expected_queries, optional_query.
  destruct (args_subnet args) as [sn|]; [destruct (truthy (Some sn))|];
    (destruct (args_policy args) as [pl|]; [destruct (truthy (Some pl))|]);
    unfold bind, verify, log, ret, events, outcome;
    repeat match goal with
      | |- context [utils_verify cloud ?q ?p0] =>
          destruct (utils_verify cloud q p0) as [[|] ?]; cbn
      end;
    (split; [reflexivity|]); (split; [reflexivity|]);
    (split; [eexists; reflexivity|]);
    (split; [repeat constructor|]);
    intro H; try discriminate H; reflexivity.
Qed.

End Validation.

Section Startup.

Context {P : Type} (cloud : Provider P).

(** [__main__] after validation: a failed validation exits at once, missing
    credentials exit after the options were built, and otherwise the two
    role steps run on the normalized options. *)
Lemma main_after_validation (fuel : nat) (args : Args) (p p0 : P) (ok : bool)
    (t0 : list Event) :
  args_num_servers args + args_num_clients args >= 1 ->
  verify_inputs cloud args p = (Ok ok, p0, t0) ->
  main cloud fuel args p =
    if ok
    then
      match discovery_build cloud p0 with
      | (true, p1) =>
          match provision cloud fuel args (options_of args)
                  (setup_network_interface (options_of args)) p1 with
          | (r, p2, t) =>
              (r, p2,
               (t0 ++ normalizer_events args
                ++ [EvBuild true; EvCall C_setup_network_interface] ++ t)%list)
          end
      | (false, p1) =>
          (Exit 1, p1,
           (t0 ++ normalizer_events args
            ++ [EvBuild false; EvPrint [Lit no_credentials_message] newline])%list)
      end
    else (Exit 1, p0, t0).
Proof.
  intros Htotal Hv. unfold main.
  replace (args_num_servers args + args_num_clients args <? 1) with false
    by (symmetry; apply Z.ltb_ge; lia).
  rewrite (bind_ok _ _ p p0 ok t0 Hv).
  destruct ok; cbn [negb].
  - rewrite (bind_ok _ _ p0 p0 (options_of args) _ (OBOptions_init_run args p0)).
    fold (normalizer_events args).
    destruct (discovery_build cloud p0) as [compute p1] eqn:Hb.
    assert (Hbuild : build cloud p0 = (Ok compute, p1, [EvBuild compute])).
    { unfold build. rewrite Hb. reflexivity. }
    rewrite (bind_ok _ _ p0 p1 compute _ Hbuild).
    destruct compute; cbn [negb].
    + rewrite (bind_ok _ _ p1 p1 (setup_network_interface (options_of args))
                 [EvCall C_setup_network_interface] eq_refl).
      fold (provision cloud fuel args (options_of args)
              (setup_network_interface (options_of args))).
      destruct (provision cloud fuel args (options_of args)
                  (setup_network_interface (options_of args)) p1) as [[r p2] t].
      reflexivity.
    + reflexivity.
  - unfold sys_exit. rewrite app_nil_r. reflexivity.
Qed.


Lemma verify_answers_map (answers : list (VerifyCall * bool)) :
  verify_answers (map (fun qa => EvVerify (fst qa) (snd qa)) answers) = answers.
Proof.
  induction answers as [|[q b] l IH]; simpl; [reflexivity|]. now rewrite IH.
Qed.

Lemma in_verify_events (q : VerifyCall) (b : bool) (t : list Event) :
  In (EvVerify q b) t <-> In (q, b) (verify_answers t).
Proof.
  induction t as [|e t IH]; simpl; [tauto|].
  destruct e; simpl; rewrite <- IH; split;
    try (intros [H | H]; [discriminate H | exact H]);
    try (intro H; right; exact H).
  - intros [H | H]; [left; congruence | right; exact H].
  - intros [H | H]; [left; congruence | right; exact H].
Qed.

End Startup.

(** X1. [verify_inputs] only queries the validators: it asks the expected
    queries in the order of the source, stops at the first one that is
    answered false, and returns whether every query it made succeeded;
    when it returns true it has made all the expected queries. *)
Theorem verify_inputs_stops_at_first_failure (P : Type) (cloud : Provider P)
    (args : Args) (p : P) :
  let run := verify_inputs cloud args p in
  let answers := verify_answers (events run) in
  events run
  = EvCall C_verify_inputs :: map (fun qa => EvVerify (fst qa) (snd qa)) answers
  /\ outcome run = Ok (forallb snd answers)
  /\ (exists rest, expected_queries args = (map fst answers ++ rest)%list)
  /\ Forall (fun qa => snd qa = true) (removelast answers)
  /\ (outcome run = Ok true -> map fst answers = expected_queries args).
Proof. exact (verify_inputs_shape cloud args p). Qed.

Lemma verify_inputs_stops_at_first_failure_witness :
  let run := verify_inputs scripted example_args (with_found (script [] []) no_such_zone) in
  (events run
   = EvCall C_verify_inputs
       :: map (fun qa => EvVerify (fst qa) (snd qa)) (verify_answers (events run))
   /\ outcome run = Ok (forallb snd (verify_answers (events run)))
   /\ (exists rest,
         expected_queries example_args
         = (map fst (verify_answers (events run)) ++ rest)%list)
   /\ Forall (fun qa => snd qa = true) (removelast (verify_answers (events run)))
   /\ (outcome run = Ok true ->
       map fst (verify_answers (events run)) = expected_queries example_args))
  /\ verify_answers (events run)
     = [(verify_project "proj", true);
        (verify_region "proj" "us-central1", true);
        (verify_zone "proj" "us-central1" "us-central1-a", false)]
  /\ outcome run = Ok false.
Proof.
  split; [|split].
  - exact (verify_inputs_stops_at_first_failure Script scripted example_args
             (with_found (script [] []) no_such_zone)).
  - reflexivity.
  - reflexivity.
Defined.

Lemma truthy_nonempty (s : string) : truthy (Some s) = true -> s <> "".
Proof.
  unfold truthy. intros H Hs. subst s. discriminate H.
Qed.

(** X2. The subnet and the policy are validated only when they are given
    and not empty, each with the project and the region of the command
    line; an input left out or empty is never looked up. *)
Theorem optional_inputs_checked_only_when_given (P : Type) (cloud : Provider P)
    (args : Args) (p : P) :
  let run := verify_inputs cloud args p in
  (forall a b s found,
      In (EvVerify (verify_subnet a b s) found) (events run) ->
      args_subnet args = Some s /\ s <> ""
      /\ a = args_project args /\ b = args_region args)
  /\ (forall a b pol found,
         In (EvVerify (verify_policy a b pol) found) (events run) ->
         args_policy args = Some pol /\ pol <> ""
         /\ a = args_project args /\ b = args_region args).
Proof.
  cbv zeta.
  destruct (verify_inputs_shape cloud args p) as (_ & _ & [rest Hexp] & _).
  assert (Hin : forall q found,
             In (EvVerify q found) (events (verify_inputs cloud args p)) ->
             In q (expected_queries args)).
  { intros q found H. apply in_verify_events in H. rewrite Hexp.
    apply in_or_app. left. apply in_map_iff. exists (q, found). split; [reflexivity | exact H]. }
  split.
  - intros a b s found H. apply Hin in H. unfold expected_queries, optional_query in H.
    apply in_app_or in H. destruct H as [H | H].
    + repeat (destruct H as [H | H]; [discriminate H|]). contradiction.
    + apply in_app_or in H. destruct H as [H | H].
      * destruct (args_subnet args) as [sn|]; [|contradiction].
        destruct (truthy (Some sn)) eqn:Ht; [|contradiction].
        destruct H as [H | []]. injection H as <- <- <-.
        repeat split; auto. now apply truthy_nonempty.
      * destruct (args_policy args) as [pl|]; [|contradiction].
        destruct (truthy (Some pl)); [|contradiction].
        destruct H as [H | []]. discriminate H.
  - intros a b pol found H. apply Hin in H. unfold expected_queries, optional_query in H.
    apply in_app_or in H. destruct H as [H | H].
    + repeat (destruct H as [H | H]; [discriminate H|]). contradiction.
    + apply in_app_or in H. destruct H as [H | H].
      * destruct (args_subnet args) as [sn|]; [|contradiction].
        destruct (truthy (Some sn)); [|contradiction].
        destruct H as [H | []]. discriminate H.
      * destruct (args_policy args) as [pl|]; [|contradiction].
        destruct (truthy (Some pl)) eqn:Ht; [|contradiction].
        destruct H as [H | []]. injection H as <- <- <-.
        repeat split; auto. now apply truthy_nonempty.
Qed.

Lemma optional_inputs_checked_only_when_given_witness :
  args_subnet tier1_args = Some "ofs-subnet" /\ "ofs-subnet" <> ""
  /\ "proj" = args_project tier1_args /\ "us-central1" = args_region tier1_args.
Proof.
  apply (proj1 (optional_inputs_checked_only_when_given Script scripted tier1_args
                  (script [] []))
           "proj" "us-central1" "ofs-subnet" true).
  vm_compute. do 7 right. left. reflexivity.
Defined.

(** ** Start-up failures *)

(** X3. When a validator answers false the run exits with code 1 right
    after [verify_inputs]: [__main__] prints nothing of its own, builds no
    options and no client, and makes no submission. *)
Theorem failed_validation_exits (P : Type) (cloud : Provider P) (fuel : nat)
    (args : Args) (p : P) :
  args_num_servers args + args_num_clients args >= 1 ->
  outcome (verify_inputs cloud args p) = Ok false ->
  main cloud fuel args p
  = (Exit 1, final (verify_inputs cloud args p), events (verify_inputs cloud args p)).
Proof.
  intros Htotal Hv.
  destruct (verify_inputs cloud args p) as [[r p0] t0] eqn:Hrun.
  unfold outcome in Hv; cbn [fst] in Hv. subst r.
  rewrite (main_after_validation cloud fuel args p p0 false t0 Htotal Hrun).
  reflexivity.
Qed.

Lemma failed_validation_exits_witness :
  main scripted 3 example_args (with_found (script [] []) no_such_zone)
  = (Exit 1, with_found (script [] []) no_such_zone,
     [EvCall C_verify_inputs;
      EvVerify (verify_project "proj") true;
      EvVerify (verify_region "proj" "us-central1") true;
      EvVerify (verify_zone "proj" "us-central1" "us-central1-a") false]).
Proof.
  apply (failed_validation_exits Script scripted 3 example_args
           (with_found (script [] []) no_such_zone)).
  - simpl. lia.
  - reflexivity.
Defined.

(** X4. Without application credentials the run prints the instructions
    and exits with code 1; the options were built before (so the NIC
    warning, if any, precedes the message), and nothing is submitted. *)
Theorem missing_credentials_exit (P : Type) (cloud : Provider P) (fuel : nat)
    (args : Args) (p : P) :
  args_num_servers args + args_num_clients args >= 1 ->
  outcome (verify_inputs cloud args p) = Ok true ->
  fst (discovery_build cloud (final (verify_inputs cloud args p))) = false ->
  main cloud fuel args p
  = (Exit 1,
     snd (discovery_build cloud (final (verify_inputs cloud args p))),
     (events (verify_inputs cloud args p)
      ++ normalizer_events args
      ++ [EvBuild false; EvPrint [Lit no_credentials_message] newline])%list).
Proof.
  intros Htotal Hv Hb.
  destruct (verify_inputs cloud args p) as [[r p0] t0] eqn:Hrun.
  unfold outcome in Hv; cbn [fst] in Hv. subst r.
  unfold final, events in *; cbn [fst snd] in *.
  rewrite (main_after_validation cloud fuel args p p0 true t0 Htotal Hrun).
  destruct (discovery_build cloud p0) as [compute p1]. cbn [fst snd] in *.
  subst compute. reflexivity.
Qed.

Lemma missing_credentials_exit_witness :
  main scripted 3 tier1_args (without_credentials (script [] []))
  = (Exit 1, without_credentials (script [] []),
     (events (verify_inputs scripted tier1_args (without_credentials (script [] [])))
      ++ [EvCall C_OBOptions; nic_warning]
      ++ [EvBuild false; EvPrint [Lit no_credentials_message] newline])%list).
Proof.
  apply (missing_credentials_exit Script scripted 3 tier1_args
           (without_credentials (script [] []))).
  - simpl. lia.
  - reflexivity.
  - reflexivity.
Defined.

Lemma forallb_snd_true (answers : list (VerifyCall * bool)) (q : VerifyCall) :
  forallb snd answers = true -> In q (map fst answers) -> In (q, true) answers.
Proof.
  intros Hall Hin. apply in_map_iff in Hin. destruct Hin as ([q' b] & Hq & Hin).
  simpl in Hq. subst q'. rewrite forallb_forall in Hall.
  pose proof (Hall _ Hin) as Hb. simpl in Hb. now subst b.
Qed.

(** X5. Nothing is submitted before validation has passed: in a run with a
    submission, the trace starts with [verify_inputs], in which every
    expected query (the optional ones included, when given) was answered
    true, and the submission comes after it. *)
Theorem submission_only_after_validation (P : Type) (cloud : Provider P) (fuel : nat)
    (args : Args) (p : P) (proj zn : string) (body : PyVal)
    (resp : HttpError + Operation) :
  In (EvBulkInsert proj zn body resp) (events (main cloud fuel args p)) ->
  exists rest,
    events (main cloud fuel args p)
    = (events (verify_inputs cloud args p) ++ rest)%list
    /\ In (EvBulkInsert proj zn body resp) rest
    /\ forall q, In q (expected_queries args) ->
                 In (EvVerify q true) (events (verify_inputs cloud args p)).
Proof.
  intro Hin.
  destruct (Z_lt_ge_dec (args_num_servers args + args_num_clients args) 1)
    as [Hzero | Htotal].
  { exfalso. unfold main in Hin.
    replace (args_num_servers args + args_num_clients args <? 1) with true in Hin
      by (symmetry; apply Z.ltb_lt; lia).
    destruct Hin as [H | []]. discriminate H. }
  destruct (verify_inputs_shape cloud args p) as (Hev & Ho & _ & _ & Hall).
  destruct (verify_inputs cloud args p) as [[r p0] t0] eqn:Hrun.
  unfold outcome, events in *; cbn [fst snd] in *. subst r.
  assert (Hquiet : ~ In (EvBulkInsert proj zn body resp) t0).
  { rewrite Hev. intros [H | H]; [discriminate H|].
    apply in_map_iff in H. destruct H as (qa & H & _). discriminate H. }
  rewrite (main_after_validation cloud fuel args p p0 _ t0 Htotal Hrun) in *.
  destruct (forallb snd (verify_answers t0)) eqn:Hok.
  - assert (Hq : forall q, In q (expected_queries args) -> In (EvVerify q true) t0).
    { intros q Hq. rewrite <- (Hall eq_refl) in Hq.
      apply in_verify_events. now apply forallb_snd_true. }
    destruct (discovery_build cloud p0) as [[|] p1].
    + destruct (provision cloud fuel args (options_of args)
                  (setup_network_interface (options_of args)) p1) as [[r p2] t].
      cbn [snd] in *. eexists. split; [reflexivity|]. split; [|exact Hq].
      apply in_app_or in Hin. destruct Hin as [Hin | Hin]; [contradiction | exact Hin].
    + cbn [snd] in *. eexists. split; [reflexivity|]. split; [|exact Hq].
      apply in_app_or in Hin. destruct Hin as [Hin | Hin]; [contradiction | exact Hin].
  - cbn [snd] in Hin. contradiction.
Qed.

Lemma submission_only_after_validation_witness :
  exists rest,
    events (main scripted 3 tier1_args (script [inl quota_error] []))
    = (events (verify_inputs scripted tier1_args (script [inl quota_error] [])) ++ rest)%list
    /\ In (EvBulkInsert "proj" "us-central1-a"
             (body_of (options_of tier1_args)
                (setup_network_interface (options_of tier1_args)) SERVER)
             (inl quota_error)) rest
    /\ forall q, In q (expected_queries tier1_args) ->
                 In (EvVerify q true)
                    (events (verify_inputs scripted tier1_args
                               (script [inl quota_error] []))).
Proof.
  apply (submission_only_after_validation Script scripted 3 tier1_args
           (script [inl quota_error] [])).
  vm_compute. do 16 right. left. reflexivity.
Defined.

(** ** Outcomes of a run *)



Lemma accounted_app_r (r : Res unit) (t1 t2 : list Event) :
  accounted r t1 -> accounted r (t1 ++ t2).
Proof.
  destruct r as [a|c|[payload|]|]; simpl; auto.
  - intros (res & Hin & H). exists res. split; [|exact H].
    rewrite wait_answers_app. apply in_or_app. now left.
  - intros (proj & zn & body & e & Hin & H). exists proj, zn, body, e.
    split; [|exact H]. apply in_or_app. now left.
Qed.

Section Outcomes.

Context {P : Type} (cloud : Provider P).




End Outcomes.



Section Completion.

Context {P : Type} (cloud : Provider P).

Lemma create_instances_completed (fuel : nat) (opts : OBOptions) (net_int : PyVal)
    (inst_type : OBInstType) (p : P) :
  outcome (create_instances cloud fuel opts net_int inst_type p) = Ok tt ->
  completed_flow opts net_int inst_type
    (provider_calls (events (create_instances cloud fuel opts net_int inst_type p))).
Proof.
  intro Hok.
  destruct (create_instances_calls cloud fuel opts net_int inst_type p)
    as (resp & answers & Hcalls & Hdone).
  destruct (Hdone Hok) as (op & pend & res & -> & -> & Hpend & Hd & Herr).
  exists op, pend, res. auto.
Qed.

Lemma provision_completed (fuel : nat) (args : Args) (opts : OBOptions)
    (net_int : PyVal) (p : P) :
  outcome (provision cloud fuel args opts net_int p) = Ok tt ->
  exists fs fc,
    provider_calls (events (provision cloud fuel args opts net_int p)) = (fs ++ fc)%list
    /\ (if args_num_servers args >? 0
        then completed_flow opts net_int SERVER fs else fs = [])
    /\ (if args_num_clients args >? 0
        then completed_flow opts net_int CLIENT fc else fc = []).
Proof.
  unfold provision. rewrite bind_events, bind_outcome, provider_calls_app.
  destruct (args_num_servers args >? 0).
  - destruct (outcome (create_instances cloud fuel opts net_int SERVER p)) as [[]|c|x|] eqn:Hs;
      try discriminate.
    intro Hc. eexists _, _. split; [reflexivity|]. split.
    + now apply create_instances_completed.
    + destruct (args_num_clients args >? 0).
      * now apply create_instances_completed.
      * reflexivity.
  - unfold outcome at 1, events at 1, final, ret. cbn [fst snd].
    intro Hc. exists [], (provider_calls
      (events ((if args_num_clients args >? 0
                then create_instances cloud fuel opts net_int CLIENT
                else ret tt) p))).
    split; [reflexivity|]. split; [reflexivity|].
    destruct (args_num_clients args >? 0).
    + now apply create_instances_completed.
    + reflexivity.
Qed.

(** An operation answered DONE with an error ends the role on the spot. *)
Lemma create_instances_operation_error (fuel : nat) (opts : OBOptions) (net_int : PyVal)
    (inst_type : OBInstType) (p : P) (res : Operation) (payload : PyVal) :
  In res (wait_answers (events (create_instances cloud fuel opts net_int inst_type p))) ->
  is_done res = true ->
  error res = Some payload ->
  outcome (create_instances cloud fuel opts net_int inst_type p)
  = Raise (Exception payload)
  /\ exists before nm,
       events (create_instances cloud fuel opts net_int inst_type p)
       = (before ++ [EvWait (project opts) (zone opts) nm res; done_line])%list.
Proof.
  rewrite create_instances_run.
  destruct (bulkInsert cloud (project opts) (zone opts) (body_of opts net_int inst_type) p)
    as [[e|op] p1].
  - unfold events; cbn [snd]. rewrite wait_answers_app. cbn [wait_answers opening app].
    intro Hin. exfalso. unfold report in Hin.
    destruct (error_message e); exact Hin.
  - destruct (wait_loop_spec cloud fuel op opts p1) as [pend [Hpend Hrun]].
    destruct (wait_loop cloud fuel op opts p1) as [[r p2] t].
    unfold outcome, events in *; cbn [fst snd] in *.
    rewrite wait_answers_app. cbn [wait_answers opening app].
    intros Hin Hd Herr.
    assert (Hnot : ~ In res pend).
    { intro H. rewrite Forall_forall in Hpend. apply Hpend in H. congruence. }
    destruct r as [res0|c|x|].
    + exfalso. destruct Hrun as (_ & Herr0 & Hev). rewrite Hev in Hin.
      rewrite wait_answers_app, wait_answers_polls in Hin. cbn [wait_answers] in Hin.
      rewrite app_nil_r in Hin. apply in_app_or in Hin.
      destruct Hin as [Hin | [<- | []]]; [contradiction | congruence].
    + contradiction.
    + destruct Hrun as (res0 & payload0 & _ & Herr0 & -> & Hev). rewrite Hev in Hin.
      rewrite wait_answers_app, wait_answers_polls in Hin. cbn [wait_answers] in Hin.
      rewrite app_nil_r in Hin. apply in_app_or in Hin.
      destruct Hin as [Hin | [<- | []]]; [contradiction|].
      split; [unfold forget; congruence|].
      exists (opening inst_type
              ++ EvBulkInsert (project opts) (zone opts) (body_of opts net_int inst_type)
                   (inr op)
                 :: EvCall (C_wait_for_operation op) :: waiting_line op
                 :: polls opts op pend)%list, (name op).
      rewrite Hev, polls_app. cbn [polls map]. unfold opening.
      rewrite <- !app_assoc. reflexivity.
    + exfalso. destruct Hrun as (Hev & _). rewrite Hev, wait_answers_polls in Hin.
      contradiction.
Qed.

Lemma provision_operation_error (fuel : nat) (args : Args) (opts : OBOptions)
    (net_int : PyVal) (p : P) (res : Operation) (payload : PyVal) :
  In res (wait_answers (events (provision cloud fuel args opts net_int p))) ->
  is_done res = true ->
  error res = Some payload ->
  outcome (provision cloud fuel args opts net_int p) = Raise (Exception payload)
  /\ exists before nm,
       events (provision cloud fuel args opts net_int p)
       = (before ++ [EvWait (project opts) (zone opts) nm res; done_line])%list.
Proof.
  unfold provision. rewrite bind_events, bind_outcome.
  set (S := if args_num_servers args >? 0 then _ else _).
  set (C := if args_num_clients args >? 0 then _ else _).
  intros Hin Hd Herr.
  assert (HS : In res (wait_answers (events (S p))) ->
               outcome (S p) = Raise (Exception payload)
               /\ exists before nm,
                    events (S p)
                    = (before ++ [EvWait (project opts) (zone opts) nm res; done_line])%list).
  { subst S. destruct (args_num_servers args >? 0).
    - intro H. now apply create_instances_operation_error.
    - intros []. }
  assert (HC : forall q, In res (wait_answers (events (C q))) ->
               outcome (C q) = Raise (Exception payload)
               /\ exists before nm,
                    events (C q)
                    = (before ++ [EvWait (project opts) (zone opts) nm res; done_line])%list).
  { intro q. subst C. destruct (args_num_clients args >? 0).
    - intro H. now apply create_instances_operation_error.
    - intros []. }
  clearbody S C. rewrite wait_answers_app in Hin. apply in_app_or in Hin.
  destruct (outcome (S p)) as [a|c|x|] eqn:Ho.
  - destruct Hin as [Hin | Hin].
    + apply HS in Hin. destruct Hin as [Hr _]. discriminate Hr.
    + apply HC in Hin. destruct Hin as (Hr & before & nm & Hev). split; [exact Hr|].
      exists (events (S p) ++ before)%list, nm. rewrite Hev, app_assoc. reflexivity.
  - destruct Hin as [Hin | []]. apply HS in Hin. destruct Hin as [Hr _]. discriminate Hr.
  - destruct Hin as [Hin | []]. apply HS in Hin. destruct Hin as (Hr & before & nm & Hev).
    split; [exact Hr|]. exists before, nm. now rewrite app_nil_r.
  - destruct Hin as [Hin | []]. apply HS in Hin. destruct Hin as [Hr _]. discriminate Hr.
Qed.

Lemma wait_answers_preamble (t : list Event) :
  Forall (fun e => is_preamble e = true) t -> wait_answers t = [].
Proof.
  induction 1 as [|e t He _ IH]; [reflexivity|].
  destruct e; simpl; try exact IH. discriminate He.
Qed.

End Completion.

(** X7. A run of [__main__] that completes has provisioned what was asked:
    at least one instance was requested, and for each role with a positive
    count the provider saw that role's submission followed by the polls of
    its operation, the last of which was answered DONE without error;
    nothing was done for a role without instances. *)
Theorem success_means_all_roles_done (P : Type) (cloud : Provider P) (fuel : nat)
    (args : Args) (p : P) :
  outcome (main cloud fuel args p) = Ok tt ->
  let opts := options_of args in
  let net_int := setup_network_interface opts in
  args_num_servers args + args_num_clients args >= 1
  /\ exists fs fc,
       provider_calls (events (main cloud fuel args p)) = (fs ++ fc)%list
       /\ (if args_num_servers args >? 0
           then completed_flow opts net_int SERVER fs else fs = [])
       /\ (if args_num_clients args >? 0
           then completed_flow opts net_int CLIENT fc else fc = []).
Proof.
  intro Hok. cbv zeta.
  destruct (Z_lt_ge_dec (args_num_servers args + args_num_clients args) 1)
    as [Hzero | Htotal].
  { exfalso. unfold main in Hok.
    replace (args_num_servers args + args_num_clients args <? 1) with true in Hok
      by (symmetry; apply Z.ltb_lt; lia).
    discriminate Hok. }
  split; [exact Htotal|].
  destruct (main_events cloud fuel args p Htotal)
    as (pre & Hpre & [[Ho Hev] | (p1 & Ho & Hev)]).
  - rewrite Ho in Hok. discriminate Hok.
  - rewrite Ho in Hok. rewrite Hev, provider_calls_app, (provider_calls_preamble pre Hpre).
    cbn [app]. now apply provision_completed.
Qed.

Lemma success_means_all_roles_done_witness :
  let args := example_args in
  let opts := options_of args in
  let net_int := setup_network_interface opts in
  let s := script [inr (pending "op-s"); inr (pending "op-c")]
                  [pending "op-s"; finished "op-s" None; finished "op-c" None] in
  args_num_servers args + args_num_clients args >= 1
  /\ exists fs fc,
       provider_calls (events (main scripted 3 args s)) = (fs ++ fc)%list
       /\ completed_flow opts net_int SERVER fs
       /\ completed_flow opts net_int CLIENT fc.
Proof.
  apply (success_means_all_roles_done Script scripted 3 example_args
           (script [inr (pending "op-s"); inr (pending "op-c")]
                   [pending "op-s"; finished "op-s" None; finished "op-c" None])).
  reflexivity.
Defined.

(** X8. An operation answered DONE with an error payload is fatal to the
    whole run, whichever role it belongs to: [__main__] ends with the
    exception that carries the payload, and the failed answer, followed by
    the "done." line, is the end of the trace; nothing is retried and no
    other role is submitted afterwards. *)
Theorem operation_error_is_fatal (P : Type) (cloud : Provider P) (fuel : nat)
    (args : Args) (p : P) (res : Operation) (payload : PyVal) :
  In res (wait_answers (events (main cloud fuel args p))) ->
  is_done res = true ->
  error res = Some payload ->
  outcome (main cloud fuel args p) = Raise (Exception payload)
  /\ exists before nm,
       events (main cloud fuel args p)
       = (before ++ [EvWait (args_project args) (args_zone args) nm res; done_line])%list.
Proof.
  intros Hin Hd Herr.
  destruct (Z_lt_ge_dec (args_num_servers args + args_num_clients args) 1)
    as [Hzero | Htotal].
  { exfalso. unfold main in Hin.
    replace (args_num_servers args + args_num_clients args <? 1) with true in Hin
      by (symmetry; apply Z.ltb_lt; lia).
    exact Hin. }
  destruct (main_events cloud fuel args p Htotal)
    as (pre & Hpre & [[Ho Hev] | (p1 & Ho & Hev)]); rewrite Hev in *.
  - exfalso. rewrite (wait_answers_preamble pre Hpre) in Hin. exact Hin.
  - rewrite wait_answers_app, (wait_answers_preamble pre Hpre) in Hin. cbn [app] in Hin.
    destruct (provision_operation_error cloud fuel args _ _ p1 res payload Hin Hd Herr)
      as (Hr & before & nm & Hb).
    split; [congruence|]. exists (pre ++ before)%list, nm.
    rewrite Hb, app_assoc. reflexivity.
Qed.

Lemma operation_error_is_fatal_witness :
  let s := script [inr (pending "op-s"); inr (pending "op-c")]
                  [pending "op-s"; finished "op-s" (Some (PyStr "QUOTA_EXCEEDED"))] in
  (outcome (main scripted 3 example_args s) = Raise (Exception (PyStr "QUOTA_EXCEEDED"))
   /\ exists before nm,
        events (main scripted 3 example_args s)
        = (before ++ [EvWait "proj" "us-central1-a" nm
                        (finished "op-s" (Some (PyStr "QUOTA_EXCEEDED")));
                      done_line])%list)
  /\ submitted (events (main scripted 3 example_args s))
     = [body_of (options_of example_args)
          (setup_network_interface (options_of example_args)) SERVER].
Proof.
  split.
  - apply (operation_error_is_fatal Script scripted 3 example_args
             (script [inr (pending "op-s"); inr (pending "op-c")]
                     [pending "op-s"; finished "op-s" (Some (PyStr "QUOTA_EXCEEDED"))])
             (finished "op-s" (Some (PyStr "QUOTA_EXCEEDED")))
             (PyStr "QUOTA_EXCEEDED")).
    + vm_compute. right. left. reflexivity.
    + reflexivity.
    + reflexivity.
  - vm_compute. reflexivity.
Defined.

(** ** Submissions *)

Section Submissions.

Context {P : Type} (cloud : Provider P).

Lemma submitted_app (t1 t2 : list Event) :
  submitted (t1 ++ t2) = (submitted t1 ++ submitted t2)%list.
Proof.
  induction t1 as [|e t1 IH]; simpl; [reflexivity|].
  destruct e; simpl; rewrite IH; reflexivity.
Qed.

Lemma submitted_preamble (t : list Event) :
  Forall (fun e => is_preamble e = true) t -> submitted t = [].
Proof.
  induction 1 as [|e t He _ IH]; [reflexivity|].
  destruct e; simpl; try exact IH. discriminate He.
Qed.

Lemma submitted_wait_loop (fuel : nat) (op : Operation) (opts : OBOptions) (p : P) :
  submitted (events (wait_loop cloud fuel op opts p)) = [].
Proof.
  pose proof (wait_loop_events cloud fuel op opts p) as H.
  induction (events (wait_loop cloud fuel op opts p)) as [|e t IH]; [reflexivity|].
  inversion H as [|? ? He Ht]; subst. specialize (IH Ht).
  destruct He as [[a ->] | ->]; simpl; exact IH.
Qed.

(** A call of [create_instances] submits once, whatever the answer. *)
Lemma create_instances_submits_once (fuel : nat) (opts : OBOptions) (net_int : PyVal)
    (inst_type : OBInstType) (p : P) :
  submitted (events (create_instances cloud fuel opts net_int inst_type p))
  = [body_of opts net_int inst_type].
Proof.
  rewrite create_instances_run.
  destruct (bulkInsert cloud (project opts) (zone opts) (body_of opts net_int inst_type) p)
    as [[e|op] p1].
  - unfold events; cbn [snd]. rewrite submitted_app. cbn [submitted opening app].
    unfold report. destruct (error_message e); reflexivity.
  - pose proof (submitted_wait_loop fuel op opts p1) as Hw.
    destruct (wait_loop cloud fuel op opts p1) as [[r p2] t].
    unfold events in *; cbn [snd] in *. rewrite submitted_app.
    cbn [submitted opening app]. now rewrite Hw.
Qed.

Lemma provision_submitted (fuel : nat) (args : Args) (p : P) :
  let run := provision cloud fuel args (options_of args)
               (setup_network_interface (options_of args)) p in
  (exists rest, planned args = (submitted (events run) ++ rest)%list)
  /\ (outcome run = Ok tt -> submitted (events run) = planned args).
Proof.
  cbv zeta. unfold provision, planned. rewrite bind_events, bind_outcome, submitted_app.
  destruct (args_num_servers args >? 0).
  - rewrite create_instances_submits_once.
    destruct (outcome (create_instances cloud fuel (options_of args)
                         (setup_network_interface (options_of args)) SERVER p))
      as [[]|c|x|].
    + destruct (args_num_clients args >? 0).
      * rewrite create_instances_submits_once.
        split; [exists []; rewrite app_nil_r; reflexivity | intros _; reflexivity].
      * split; [exists []; reflexivity | intros _; reflexivity].
    + split; [eexists; cbn [submitted app]; reflexivity | discriminate].
    + split; [eexists; cbn [submitted app]; reflexivity | discriminate].
    + split; [eexists; cbn [submitted app]; reflexivity | discriminate].
  - cbv beta iota delta [ret outcome final fst snd].
    destruct (args_num_clients args >? 0).
    + rewrite create_instances_submits_once.
      split; [exists []; reflexivity | intros _; reflexivity].
    + split; [exists []; reflexivity | intros _; reflexivity].
Qed.

End Submissions.

(** X9. [__main__] submits each request at most once and in a fixed order:
    the bodies of the submissions of a run are an initial part of the
    requests planned from the command line (the server's first, then the
    client's, each only for a positive count), and all of them when the
    run completes.  No request is ever submitted again. *)
Theorem submissions_follow_the_plan (P : Type) (cloud : Provider P) (fuel : nat)
    (args : Args) (p : P) :
  let run := main cloud fuel args p in
  (exists rest, planned args = (submitted (events run) ++ rest)%list)
  /\ (outcome run = Ok tt -> submitted (events run) = planned args)
  /\ (List.length (submitted (events run)) <= 2)%nat.
Proof.
  cbv zeta.
  assert (Hmain :
    (exists rest, planned args = (submitted (events (main cloud fuel args p)) ++ rest)%list)
    /\ (outcome (main cloud fuel args p) = Ok tt ->
        submitted (events (main cloud fuel args p)) = planned args)).
  { destruct (Z_lt_ge_dec (args_num_servers args + args_num_clients args) 1)
      as [Hzero | Htotal].
    - unfold main.
      replace (args_num_servers args + args_num_clients args <? 1) with true
        by (symmetry; apply Z.ltb_lt; lia).
      split; [exists (planned args); reflexivity | discriminate].
    - destruct (main_events cloud fuel args p Htotal)
        as (pre & Hpre & [[Ho Hev] | (p1 & Ho & Hev)]); rewrite Ho, Hev.
      + rewrite (submitted_preamble pre Hpre).
        split; [exists (planned args); reflexivity | discriminate].
      + rewrite submitted_app, (submitted_preamble pre Hpre). cbn [app].
        apply provision_submitted. }
  destruct Hmain as ([rest Hrest] & Hok).
  split; [exists rest; exact Hrest|]. split; [exact Hok|].
  assert (Hlen : (List.length (planned args) <= 2)%nat).
  { unfold planned. destruct (args_num_servers args >? 0), (args_num_clients args >? 0);
      simpl; lia. }
  rewrite Hrest, length_app in Hlen. lia.
Qed.

Lemma submissions_follow_the_plan_witness :
  let s := script [inr (pending "op-s"); inr (pending "op-c")]
                  [pending "op-s"; finished "op-s" None; finished "op-c" None] in
  submitted (events (main scripted 3 example_args s)) = planned example_args.
Proof.
  apply (proj1 (proj2 (submissions_follow_the_plan Script scripted 3 example_args
                         (script [inr (pending "op-s"); inr (pending "op-c")]
                                 [pending "op-s"; finished "op-s" None;
                                  finished "op-c" None])))).
  reflexivity.
Defined.

(** ** The bound on the poll loops *)

Section Fuel.

Context {P : Type} (cloud : Provider P).




End Fuel.



(** ** From the command line to the descriptors *)

Lemma OBOptions_init_result {P : Type} (args : Args) (p : P) (opts : OBOptions) :
  outcome (OBOptions_init args p) = Ok opts -> opts = options_of args.
Proof.
  rewrite OBOptions_init_run. unfold outcome; cbn [fst]. congruence.
Qed.

Lemma options_of_tier1 (args : Args) :
  args_enable_tier1_networking args = true ->
  nic_type (options_of args) = Some "GVNIC".
Proof.
  intro Ht. unfold options_of; cbn [nic_type]. rewrite Ht. cbn [andb].
  destruct (opt_str_eqb (args_nic_type args) (Some "GVNIC")) eqn:E; cbn [negb].
  - now apply opt_str_eqb_eq.
  - reflexivity.
Qed.

(** X11. A subnet given on the command line reaches the network interface
    as its fully qualified path, a subnet left out or given empty leaves
    the interface without a [subnetwork] field, and the access
    configuration is the same in every case. *)
Theorem subnet_reaches_the_interface (P : Type) (args : Args) (p : P) (opts : OBOptions) :
  outcome (OBOptions_init args p) = Ok opts ->
  field "subnetwork" (setup_network_interface opts)
  = match args_subnet args with
    | Some s =>
        if String.eqb s ""
        then None
        else Some (PyStr ("regions/" ++ args_region args ++ "/subnetworks/" ++ s))
    | None => None
    end
  /\ field "accessConfigs" (setup_network_interface opts)
     = Some (PyList [PyDict [("type", PyStr "ONE_TO_ONE_NAT");
                             ("name", PyStr "External NAT");
                             ("networkTier", PyStr "PREMIUM")]]).
Proof.
  intro Hinit. apply OBOptions_init_result in Hinit. subst opts.
  unfold setup_network_interface.
  set (nic := nic_type (options_of args)).
  unfold options_of; cbn [subnet]. fold (options_of args).
  destruct (args_subnet args) as [s|].
  - change (truthy (Some s)) with (negb (String.eqb s "")).
    destruct (String.eqb s ""); cbn [negb];
      destruct (truthy nic); split; reflexivity.
  - destruct (truthy nic); split; reflexivity.
Qed.

Lemma subnet_reaches_the_interface_witness :
  field "subnetwork" (setup_network_interface (options_of tier1_args))
  = Some (PyStr "regions/us-central1/subnetworks/ofs-subnet")
  /\ field "accessConfigs" (setup_network_interface (options_of tier1_args))
     = Some (PyList [PyDict [("type", PyStr "ONE_TO_ONE_NAT");
                             ("name", PyStr "External NAT");
                             ("networkTier", PyStr "PREMIUM")]]).
Proof.
  apply (subnet_reaches_the_interface unit tier1_args tt (options_of tier1_args)).
  reflexivity.
Defined.

(** X12. Tier-1 networking always comes with gVNIC: for the options built
    from a command line with tier-1 networking enabled, the network
    interface asks for the GVNIC NIC type, the boot disk of either role
    carries the GVNIC guest feature, and the instance properties carry the
    TIER_1 block, whatever NIC type was requested. *)
Theorem tier1_comes_with_gvnic (P : Type) (args : Args) (p : P) (opts : OBOptions)
    (is_server : bool) (net_int : PyVal) (disks : list PyVal) :
  outcome (OBOptions_init args p) = Ok opts ->
  args_enable_tier1_networking args = true ->
  field "nicType" (setup_network_interface opts) = Some (PyStr "GVNIC")
  /\ field "guestOsFeatures" (hd PyNone (setup_disks opts is_server))
     = Some (PyList [PyDict [("type", PyStr "GVNIC")]])
  /\ field "networkPerformanceConfig"
       (setup_instance_properties opts is_server net_int disks)
     = Some tier1_block.
Proof.
  intros Hinit Ht. apply OBOptions_init_result in Hinit. subst opts.
  pose proof (options_of_tier1 args Ht) as Hnic.
  split; [|split].
  - unfold setup_network_interface. rewrite Hnic.
    destruct (truthy (subnet (options_of args))); reflexivity.
  - unfold setup_disks. rewrite Hnic. cbn [opt_str_eqb String.eqb Ascii.eqb Bool.eqb].
    destruct (is_server && (Server.num_ssd_per (server (options_of args)) >? 0));
      reflexivity.
  - unfold setup_instance_properties.
    replace (enable_tier1_networking (options_of args)) with true
      by (symmetry; exact Ht).
    destruct (truthy (policy (options_of args))), is_server; reflexivity.
Qed.

Lemma tier1_comes_with_gvnic_witness :
  field "nicType" (setup_network_interface (options_of tier1_args)) = Some (PyStr "GVNIC")
  /\ field "guestOsFeatures" (hd PyNone (setup_disks (options_of tier1_args) false))
     = Some (PyList [PyDict [("type", PyStr "GVNIC")]])
  /\ field "networkPerformanceConfig"
       (setup_instance_properties (options_of tier1_args) false
          (setup_network_interface (options_of tier1_args))
          (setup_disks (options_of tier1_args) false))
     = Some tier1_block.
Proof.
  apply (tier1_comes_with_gvnic unit tier1_args tt (options_of tier1_args) false
           (setup_network_interface (options_of tier1_args))
           (setup_disks (options_of tier1_args) false)).
  - reflexivity.
  - reflexivity.
Defined.

(** X13. The two descriptors agree on the NIC: the boot disk carries the
    GVNIC guest feature exactly when the network interface asks for the
    GVNIC NIC type, for either role; an empty NIC type gives neither a
    [nicType] field nor the feature. *)
Theorem boot_disk_agrees_with_interface (opts : OBOptions) (is_server : bool) :
  (has_key "guestOsFeatures" (hd PyNone (setup_disks opts is_server)) = true
   <-> field "nicType" (setup_network_interface opts) = Some (PyStr "GVNIC"))
  /\ (nic_type opts = Some "" ->
      has_key "nicType" (setup_network_interface opts) = false
      /\ has_key "guestOsFeatures" (hd PyNone (setup_disks opts is_server)) = false).
Proof.
  assert (Hboot : has_key "guestOsFeatures" (hd PyNone (setup_disks opts is_server))
                  = opt_str_eqb (nic_type opts) (Some "GVNIC")).
  { unfold setup_disks.
    destruct (opt_str_eqb (nic_type opts) (Some "GVNIC"));
      destruct (is_server && (Server.num_ssd_per (server opts) >? 0)); reflexivity. }
  assert (Hnet : field "nicType" (setup_network_interface opts)
                 = if truthy (nic_type opts) then Some (of_opt (nic_type opts)) else None).
  { unfold setup_network_interface.
    destruct (truthy (subnet opts)), (truthy (nic_type opts)); reflexivity. }
  split.
  - rewrite Hboot, Hnet. split.
    + intro H. apply opt_str_eqb_eq in H. rewrite H. reflexivity.
    + intro H. apply opt_str_eqb_eq.
      destruct (nic_type opts) as [s|]; cbn [truthy of_opt] in H.
      * destruct (negb (String.eqb s "")); [|discriminate H]. congruence.
      * discriminate H.
  - intro Hempty. rewrite Hboot. unfold has_key.
    unfold setup_network_interface. rewrite Hempty.
    destruct (truthy (subnet opts)); split; reflexivity.
Qed.

Lemma boot_disk_agrees_with_interface_witness :
  has_key "nicType"
    (setup_network_interface (options_of (with_nic example_args (Some "") false))) = false
  /\ has_key "guestOsFeatures"
       (hd PyNone (setup_disks (options_of (with_nic example_args (Some "") false)) true))
     = false.
Proof.
  apply (proj2 (boot_disk_agrees_with_interface
                  (options_of (with_nic example_args (Some "") false)) true)).
  reflexivity.
Defined.

(** X14. The role only adds scratch disks: the disks of the server role are
    the disks of the client role followed by [num_ssd_per] copies of the
    scratch disk, and by none when [num_ssd_per] is zero or negative. *)
Theorem server_disks_extend_client_disks (opts : OBOptions) :
  setup_disks opts true
  = (setup_disks opts false
     ++ list_times local_disk (Server.num_ssd_per (server opts)))%list
  /\ (Server.num_ssd_per (server opts) <= 0 ->
      setup_disks opts true = setup_disks opts false).
Proof.
  unfold setup_disks. cbn [andb].
  destruct (Server.num_ssd_per (server opts) >? 0) eqn:Hpos.
  - split; [reflexivity|]. intro Hn. apply Z.gtb_lt in Hpos. lia.
  - assert (Hnone : list_times local_disk (Server.num_ssd_per (server opts)) = []).
    { unfold list_times. rewrite Z.gtb_ltb in Hpos. apply Z.ltb_ge in Hpos.
      replace (Z.to_nat (Server.num_ssd_per (server opts))) with 0%nat by lia.
      reflexivity. }
    rewrite Hnone. split; [reflexivity | intros _; reflexivity].
Qed.

Lemma server_disks_extend_client_disks_witness :
  setup_disks (options_of (with_counts example_args 1 1)) true
  = (setup_disks (options_of (with_counts example_args 1 1)) false
     ++ [local_disk; local_disk])%list.
Proof.
  exact (proj1 (server_disks_extend_client_disks
                  (options_of (with_counts example_args 1 1)))).
Defined.

(** X15. What [wait_for_operation] prints: the "Waiting" line once, before
    the first query, and the "done." line once, right after the answer in
    status DONE and as the last event, also when that answer carries an
    error and the function raises; while it polls nothing is printed. *)
Theorem progress_lines (P : Type) (cloud : Provider P) (fuel : nat)
    (operation : Operation) (opts : OBOptions) (p : P) :
  let run := wait_for_operation cloud fuel operation opts p in
  exists pend,
    Forall (fun o => is_done o = false) pend
    /\ ((outcome run = Running
         /\ events run
            = EvCall (C_wait_for_operation operation) :: waiting_line operation
                :: polls opts operation pend)
        \/ (exists res,
              is_done res = true
              /\ outcome run = match error res with
                               | Some payload => Raise (Exception payload)
                               | None => Ok res
                               end
              /\ events run
                 = (EvCall (C_wait_for_operation operation) :: waiting_line operation
                      :: polls opts operation pend
                    ++ [EvWait (project opts) (zone opts) (name operation) res;
                        done_line])%list)).
Proof.
  cbv zeta. rewrite wait_for_operation_run.
  destruct (wait_loop_spec cloud fuel operation opts p) as [pend [Hpend Hrun]].
  destruct (wait_loop cloud fuel operation opts p) as [[r p'] t].
  unfold outcome, events in *; cbn [fst snd] in *.
  exists pend. split; [exact Hpend|].
  destruct r as [res|c|x|].
  - right. destruct Hrun as (Hd & Herr & ->). exists res. rewrite Herr.
    split; [exact Hd|]. split; [reflexivity|].
    rewrite polls_app. cbn [polls map]. rewrite <- app_assoc. reflexivity.
  - contradiction.
  - right. destruct Hrun as (res & payload & Hd & Herr & -> & ->). exists res.
    rewrite Herr. split; [exact Hd|]. split; [reflexivity|].
    rewrite polls_app. cbn [polls map]. rewrite <- app_assoc. reflexivity.
  - left. destruct Hrun as (-> & _). split; reflexivity.
Qed.

Lemma progress_lines_witness :
  let run := wait_for_operation scripted 4 (pending "op-1") (options_of example_args)
               (script [] [pending "op-1"; finished "op-1" (Some (PyStr "QUOTA"))]) in
  (exists pend,
      Forall (fun o => is_done o = false) pend
      /\ ((outcome run = Running
           /\ events run
              = EvCall (C_wait_for_operation (pending "op-1"))
                  :: waiting_line (pending "op-1")
                  :: polls (options_of example_args) (pending "op-1") pend)
          \/ (exists res,
                is_done res = true
                /\ outcome run = match error res with
                                 | Some payload => Raise (Exception payload)
                                 | None => Ok res
                                 end
                /\ events run
                   = (EvCall (C_wait_for_operation (pending "op-1"))
                        :: waiting_line (pending "op-1")
                        :: polls (options_of example_args) (pending "op-1") pend
                      ++ [EvWait "proj" "us-central1-a" "op-1" res; done_line])%list)))
  /\ events run
     = [EvCall (C_wait_for_operation (pending "op-1"));
        waiting_line (pending "op-1");
        EvWait "proj" "us-central1-a" "op-1" (pending "op-1");
        EvWait "proj" "us-central1-a" "op-1" (finished "op-1" (Some (PyStr "QUOTA")));
        done_line].
Proof.
  split.
  - exact (progress_lines Script scripted 4 (pending "op-1") (options_of example_args)
             (script [] [pending "op-1"; finished "op-1" (Some (PyStr "QUOTA"))])).
  - reflexivity.
Defined.

(** X16. The request of a role reflects the command line: the count and
    the name pattern (the prefix followed by ["##"]) are those of the role,
    the instance properties carry the role's machine type, the one network
    interface, the qualified access scopes in the order given and the
    role's disks, whose boot disk is created from [global/images/<image>];
    the optional policy and tier-1 blocks leave these fields untouched. *)
Theorem request_reflects_command_line (args : Args) (r : OBInstType) :
  let opts := options_of args in
  let body := body_of opts (setup_network_interface opts) r in
  field "count" body = Some (PyInt (count_of args r))
  /\ field "namePattern" body
     = Some (PyStr (match r with
                    | SERVER => args_server_prefix args
                    | CLIENT => args_client_prefix args
                    end ++ "##"))
  /\ exists props boot,
       field "instanceProperties" body = Some props
       /\ field "machineType" props
          = Some (PyStr (match r with
                         | SERVER => args_server_type args
                         | CLIENT => args_client_type args
                         end))
       /\ field "networkInterfaces" props = Some (PyList [setup_network_interface opts])
       /\ field "serviceAccounts" props
          = Some (PyList
                    [PyDict
                       [("scopes",
                         PyList (map (fun item =>
                                        PyStr ("https://www.googleapis.com/auth/" ++ item))
                                     (args_scopes args)))]])
       /\ field "disks" props = Some (PyList (setup_disks opts (is_server_of r)))
       /\ hd_error (setup_disks opts (is_server_of r)) = Some boot
       /\ field "initializeParams" boot
          = Some (PyDict [("sourceImage", PyStr ("global/images/" ++ args_image args))]).
Proof.
  cbv zeta.
  assert (Hboot : forall b,
             exists boot,
               hd_error (setup_disks (options_of args) b) = Some boot
               /\ field "initializeParams" boot
                  = Some (PyDict [("sourceImage",
                                   PyStr ("global/images/" ++ args_image args))])).
  { intro b. unfold setup_disks.
    destruct (opt_str_eqb (nic_type (options_of args)) (Some "GVNIC"));
      destruct (b && (Server.num_ssd_per (server (options_of args)) >? 0));
      eexists; split; reflexivity. }
  destruct (Hboot (is_server_of r)) as (boot & Hhd & Hinit).
  split; [destruct r; reflexivity|]. split; [destruct r; reflexivity|].
  exists (setup_instance_properties (options_of args) (is_server_of r)
            (setup_network_interface (options_of args))
            (setup_disks (options_of args) (is_server_of r))), boot.
  split; [destruct r; reflexivity|].
  unfold setup_instance_properties.
  replace (map PyStr (scopes (options_of args)))
    with (map (fun item => PyStr ("https://www.googleapis.com/auth/" ++ item))
              (args_scopes args))
    by (unfold options_of; cbn [scopes]; rewrite map_map; reflexivity).
  repeat split; try assumption;
    destruct r, (truthy (policy (options_of args))),
      (enable_tier1_networking (options_of args)); reflexivity.
Qed.

Lemma request_reflects_command_line_witness :
  field "count"
    (body_of (options_of tier1_args) (setup_network_interface (options_of tier1_args))
       CLIENT) = Some (PyInt 3)
  /\ field "namePattern"
       (body_of (options_of tier1_args) (setup_network_interface (options_of tier1_args))
          CLIENT) = Some (PyStr "ofs-client-##").
Proof.
  split.
  - exact (proj1 (request_reflects_command_line tier1_args CLIENT)).
  - exact (proj1 (proj2 (request_reflects_command_line tier1_args CLIENT))).
Defined.

(** ** Error bodies *)




